(** * JWT authentication core of the FastAPI service

    A shallow embedding of [app/auth/jwt_handler.py], [app/auth/auth_utils.py],
    [app/middleware.py], the user operations of [app/services/database.py] and
    the routes of [app/routers/auth.py] and [app/routers/users.py], together
    with the properties of the token service, the authentication gate, the
    access policy and the user directory.

    Python dictionaries are finite maps from strings to values, exceptions are
    an explicit result type, and the wall clock is an explicit argument
    (microseconds since the epoch, UTC); one call reads it once.

    The libraries the service calls are modelled by what the calls in the
    source observe of them: [jwt.encode] and [jwt.decode] of python-jose with
    their default options, [CryptContext.verify] of passlib with bcrypt as its
    only scheme, down to the parsing of a bcrypt hash, and [find_one], [find],
    [insert_one], [update_one] and [delete_one] of the MongoDB driver, with
    what BSON keeps of a document.  Signatures are symbolic; the bcrypt
    checksum, the hash [pwd_context.hash] returns, Python's [int] on
    strings, the local time offset of the host, the decoding of a header
    string into a token, the validation done by the response model and the
    time the lookup and the password verification take are parameters. *)

From Stdlib Require Import ZArith Lia Ascii String.
From stdpp Require Import gmap strings list fin_maps pretty.

Local Open Scope Z_scope.

(** ** Python values and dictionaries *)

(** The scalar values that occur in claim sets and user records.  A naive
    [datetime] is its number of microseconds since the epoch; [VObjectId] is
    the [_id] MongoDB adds to every stored document. *)
Inductive PyVal : Type :=
  | VNone
  | VBool (b : bool)
  | VInt (n : Z)
  | VStr (s : string)
  | VDatetime (us : Z)
  | VObjectId (hex : string).

#[global] Instance PyVal_eq_dec : EqDecision PyVal.
Proof. solve_decision. Defined.

Abbreviation Dict := (gmap string PyVal).

(** [d.get(k)]: the value, or [None] when the key is absent. *)
Definition dict_get (d : Dict) (k : string) : PyVal := default VNone (d !! k).

(** [d.get(k, dflt)]. *)
Definition dict_get_default (d : Dict) (k : string) (dflt : PyVal) : PyVal :=
  default dflt (d !! k).

(** Truth value of an object, as [not x] and [if x] see it. *)
Definition truthy (v : PyVal) : bool :=
  match v with
  | VNone => false
  | VBool b => b
  | VInt n => negb (n =? 0)
  | VStr s => negb (String.eqb s EmptyString)
  | VDatetime _ => true
  | VObjectId _ => true
  end.

(** ** Exceptions and results *)

Record HTTPException : Type := mkHTTPException {
  status_code : Z;
  detail : string;
  headers : option (list (string * string))
}.

#[global] Instance HTTPException_eq_dec : EqDecision HTTPException.
Proof. solve_decision. Defined.

Inductive Exc : Type :=
  | EHTTP (e : HTTPException)
  | EJWTError                (* jose.JWTError and its subclasses *)
  | EValueError
  | ETypeError
  | EKeyError
  | EIndexError
  | EOverflowError
  | EConnection.             (* the document store cannot be reached *)

#[global] Instance Exc_eq_dec : EqDecision Exc.
Proof. solve_decision. Defined.

Inductive Result (A : Type) : Type :=
  | Ok (a : A)
  | Raise (e : Exc).

Arguments Ok {A} a.
Arguments Raise {A} e.

#[global] Instance Result_bind : MBind Result :=
  fun A B f r => match r with Ok a => f a | Raise e => Raise e end.

(** [d[k]]: raises [KeyError] when the key is absent. *)
Definition dict_index (d : Dict) (k : string) : Result PyVal :=
  match d !! k with
  | Some v => Ok v
  | None => Raise EKeyError
  end.

Definition HTTP_401_UNAUTHORIZED : Z := 401.
Definition HTTP_403_FORBIDDEN : Z := 403.
Definition HTTP_404_NOT_FOUND : Z := 404.
Definition HTTP_500_INTERNAL_SERVER_ERROR : Z := 500.

Definition www_authenticate : option (list (string * string)) :=
  Some [("WWW-Authenticate", "Bearer")]%string.

(** ** Dates and times *)

(** [datetime.min] and [datetime.max] in microseconds since the epoch
    (0001-01-01T00:00:00 and 9999-12-31T23:59:59.999999). *)
Definition datetime_min : Z := -62135596800000000.
Definition datetime_max : Z := 253402300799999999.

(** [timedelta.min] and [timedelta.max] in microseconds (999999999 days
    either way, the largest up to its last microsecond). *)
Definition timedelta_min : Z := -86399999913600000000.
Definition timedelta_max : Z := 86399999999999999999.

Definition in_datetime_range (us : Z) : bool :=
  (datetime_min <=? us) && (us <=? datetime_max).

(** [timedelta(minutes=m)]. *)
Definition timedelta_minutes (m : Z) : Result Z :=
  let us := m * 60000000 in
  if (timedelta_min <=? us) && (us <=? timedelta_max) then Ok us
  else Raise EOverflowError.

(** [dt + delta] on naive datetimes. *)
Definition datetime_add (dt delta : Z) : Result Z :=
  let r := dt + delta in
  if in_datetime_range r then Ok r else Raise EOverflowError.

(** [calendar.timegm(dt.utctimetuple())]: whole seconds, the microseconds
    are dropped. *)
Definition timegm (us : Z) : Z := us / 1000000.

(** ** Tokens *)

(** Signatures are symbolic: a token records the algorithm and key it was
    signed with and the claim set it carries; it verifies under exactly that
    key and algorithm.  [Garbage] stands for every string that is not a
    compact JWS with a JSON-object payload. *)
Inductive Token : Type :=
  | Garbage (raw : string)
  | Signed (alg : string) (key : string) (claims : Dict).

#[global] Instance Token_eq_dec : EqDecision Token.
Proof. solve_decision. Defined.

(** The algorithms usable with a shared string secret. *)
Definition hmac_algorithms : list string := ["HS256"; "HS384"; "HS512"]%string.

Definition is_hmac (a : string) : bool := bool_decide (a ∈ hmac_algorithms).

(** ** Strings

    A [str] is held as its UTF-8 bytes. *)

(** The bytes [10xxxxxx], which continue a code point and start none. *)
Definition utf8_continuation (c : ascii) : bool :=
  match c with
  | Ascii _ _ _ _ _ _ b6 b7 => b7 && negb b6
  end.

(** [len(s)]: the number of code points of [s]. *)
Fixpoint len (s : string) : nat :=
  match s with
  | EmptyString => 0%nat
  | String c s' => if utf8_continuation c then len s' else S (len s')
  end.

(** [s.split(sep)] for a one-character separator. *)
Fixpoint split (sep : ascii) (s : string) : list string :=
  match s with
  | EmptyString => [EmptyString]
  | String c s' =>
      if Ascii.eqb c sep then EmptyString :: split sep s'
      else match split sep s' with
           | w :: ws => String c w :: ws
           | [] => [String c EmptyString]
           end
  end.

(** [s[:n]] and [s[n:]] for [n >= 0], on a string of one-byte characters. *)
Fixpoint take_string (n : nat) (s : string) : string :=
  match n, s with
  | S n', String c s' => String c (take_string n' s')
  | _, _ => EmptyString
  end.

Fixpoint drop_string (n : nat) (s : string) : string :=
  match n, s with
  | S n', String _ s' => drop_string n' s'
  | _, _ => s
  end.

(** [chars.index(c)], where [c] occurs in [chars]. *)
Fixpoint index_in (c : ascii) (chars : string) : option nat :=
  match chars with
  | EmptyString => None
  | String c' chars' =>
      if Ascii.eqb c' c then Some 0%nat else S <$> index_in c chars'
  end.

(** [all(c in chars for c in s)]. *)
Fixpoint all_in (chars s : string) : bool :=
  match s with
  | EmptyString => true
  | String c s' =>
      match index_in c chars with
      | Some _ => all_in chars s'
      | None => false
      end
  end.

Set Default Proof Using "Type".

Section Service.

(** ** Parameters of the host and of the libraries *)

(** Local time minus UTC on the host, in seconds. *)
Variable utc_offset : Z.

(** Python's [int(s)] on a string: the integer it denotes, or [None] where
    [int] raises [ValueError]. *)
Variable int_of_str : string -> option Z.

(** [int(v)]. *)
Definition py_int (v : PyVal) : Result Z :=
  match v with
  | VInt n => Ok n
  | VBool b => Ok (if b then 1 else 0)
  | VStr s => match int_of_str s with
              | Some n => Ok n
              | None => Raise EValueError
              end
  | VNone | VDatetime _ | VObjectId _ => Raise ETypeError
  end.

(** [datetime.fromtimestamp(ts)]: the naive {e local} time of a POSIX
    timestamp. *)
Definition fromtimestamp (ts : PyVal) : Result Z :=
  match ts with
  | VInt n =>
      let us := (n + utc_offset) * 1000000 in
      if in_datetime_range us then Ok us else Raise EOverflowError
  | VBool b =>
      let us := ((if b then 1 else 0) + utc_offset) * 1000000 in
      if in_datetime_range us then Ok us else Raise EOverflowError
  | _ => Raise ETypeError
  end.

(** ** The JOSE library: [jwt.encode] and [jwt.decode] with default options

    With its default options [jwt.decode] checks the signature and then the
    registered claims [iat], [nbf], [exp], [aud], [iss], [sub], [jti] and
    [at_hash], in this order and without leeway; every failure is a
    [JWTError].  No audience, issuer, subject or access token is passed by
    the source. *)

(** [jws.verify]: the header algorithm must be one of [algorithms] and the
    signature must verify under [key]. *)
Definition jws_verify (token : Token) (key : string) (algorithms : list string)
  : Result Dict :=
  match token with
  | Garbage _ => Raise EJWTError
  | Signed a k claims =>
      if bool_decide (a ∈ algorithms) && is_hmac a && bool_decide (k = key)
      then Ok claims
      else Raise EJWTError
  end.

(** A registered claim that must convert with [int]; only [ValueError] is
    turned into a claims error. *)
Definition int_claim (claims : Dict) (k : string) : Result (option Z) :=
  match claims !! k with
  | None => Ok None
  | Some v =>
      match py_int v with
      | Ok n => Ok (Some n)
      | Raise EValueError => Raise EJWTError
      | Raise e => Raise e
      end
  end.

Definition validate_iat (claims : Dict) : Result unit :=
  _ ← int_claim claims "iat"; Ok tt.

Definition validate_nbf (now : Z) (claims : Dict) : Result unit :=
  n ← int_claim claims "nbf";
  match n with
  | Some nbf => if nbf >? timegm now then Raise EJWTError else Ok tt
  | None => Ok tt
  end.

(** [ExpiredSignatureError] is a [JWTError]. *)
Definition validate_exp (now : Z) (claims : Dict) : Result unit :=
  n ← int_claim claims "exp";
  match n with
  | Some exp => if exp <? timegm now then Raise EJWTError else Ok tt
  | None => Ok tt
  end.

(** No audience is passed to [decode], so a token that names one is
    rejected. *)
Definition validate_aud (claims : Dict) : Result unit :=
  match claims !! "aud" with
  | None => Ok tt
  | Some _ => Raise EJWTError
  end.

Definition validate_str_claim (claims : Dict) (k : string) : Result unit :=
  match claims !! k with
  | None | Some (VStr _) => Ok tt
  | Some _ => Raise EJWTError
  end.

(** No access token is passed to [decode]. *)
Definition validate_at_hash (claims : Dict) : Result unit :=
  match claims !! "at_hash" with
  | None => Ok tt
  | Some _ => Raise EJWTError
  end.

Definition validate_claims (now : Z) (claims : Dict) : Result unit :=
  _ ← validate_iat claims;
  _ ← validate_nbf now claims;
  _ ← validate_exp now claims;
  _ ← validate_aud claims;
  _ ← validate_str_claim claims "sub";
  _ ← validate_str_claim claims "jti";
  validate_at_hash claims.

(** [jwt.decode(token, key, algorithms=algorithms)]. *)
Definition jwt_decode (now : Z) (token : Token) (key : string)
    (algorithms : list string) : Result Dict :=
  claims ← jws_verify token key algorithms;
  _ ← validate_claims now claims;
  Ok claims.

(** [jwt.encode] turns a [datetime] under [exp], [iat] or [nbf] into whole
    seconds. *)
Definition convert_time_claim (k : string) (claims : Dict) : Dict :=
  match claims !! k with
  | Some (VDatetime us) => <[k := VInt (timegm us)]> claims
  | _ => claims
  end.

Definition json_serializable (v : PyVal) : bool :=
  match v with
  | VDatetime _ | VObjectId _ => false
  | _ => true
  end.

(** [jwt.encode(claims, key, algorithm=algorithm)]. *)
Definition jwt_encode (claims : Dict) (key : string) (algorithm : string)
  : Result Token :=
  let claims :=
    convert_time_claim "nbf"
      (convert_time_claim "iat" (convert_time_claim "exp" claims)) in
  if negb (is_hmac algorithm) then Raise EJWTError
  else if bool_decide
            (map_Forall (fun _ v => json_serializable v = true) claims)
       then Ok (Signed algorithm key claims)
       else Raise ETypeError.

(** ** [app/auth/jwt_handler.py] *)

Record JWTHandler : Type := mkJWTHandler {
  secret_key : string;
  algorithm : string;
  access_token_expire_minutes : Z
}.

Definition could_not_create : HTTPException :=
  mkHTTPException HTTP_500_INTERNAL_SERVER_ERROR
    "Could not create access token" None.

Definition invalid_credentials : HTTPException :=
  mkHTTPException HTTP_401_UNAUTHORIZED "Invalid authentication credentials"
    www_authenticate.

Definition token_expired : HTTPException :=
  mkHTTPException HTTP_401_UNAUTHORIZED "Token expired" www_authenticate.

Definition could_not_refresh : HTTPException :=
  mkHTTPException HTTP_401_UNAUTHORIZED "Could not refresh token" None.

(** [expires_delta] is a [timedelta] in microseconds; a zero delta is falsy
    and selects the default like [None] does. *)
Definition create_access_token (self : JWTHandler) (now : Z) (data : Dict)
    (expires_delta : option Z) : Result Token :=
  let body : Result Token :=
    let to_encode := data in
    expire ← (match expires_delta with
              | Some d =>
                  if negb (d =? 0) then datetime_add now d
                  else
                    (td ← timedelta_minutes (access_token_expire_minutes self);
                     datetime_add now td)
              | None =>
                  td ← timedelta_minutes (access_token_expire_minutes self);
                  datetime_add now td
              end);
    let to_encode :=
      <["iat" := VDatetime now]> (<["exp" := VDatetime expire]> to_encode) in
    jwt_encode to_encode (secret_key self) (algorithm self) in
  match body with
  | Ok encoded_jwt => Ok encoded_jwt
  | Raise _ => Raise (EHTTP could_not_create)
  end.

Definition verify_token (self : JWTHandler) (now : Z) (token : Token)
  : Result Dict :=
  let body : Result Dict :=
    payload ← jwt_decode now token (secret_key self) [algorithm self];
    let username := dict_get payload "sub" in
    if bool_decide (username = VNone) then Raise (EHTTP invalid_credentials)
    else
      let exp := dict_get payload "exp" in
      expired ← (if bool_decide (exp = VNone) then Ok true
                 else (limit ← fromtimestamp exp; Ok (now >? limit)));
      if (expired : bool) then Raise (EHTTP token_expired) else Ok payload in
  match body with
  | Raise EJWTError => Raise (EHTTP invalid_credentials)
  | r => r
  end.

Definition refresh_token (self : JWTHandler) (now : Z) (token : Token)
  : Result Token :=
  let body : Result Token :=
    payload ← verify_token self now token;
    let new_payload : Dict := {[ "sub" := dict_get payload "sub" ]} in
    create_access_token self now new_payload None in
  match body with
  | Ok t => Ok t
  | Raise _ => Raise (EHTTP could_not_refresh)
  end.

(** ** [app/services/database.py]: the user collection *)

Inductive Database : Type :=
  | Unreachable
  | Collection (docs : list Dict).

(** [collection.find_one] on an equality filter [field = v], for a value
    that is not [None]: the first document whose field equals [v]. *)
Definition find_one (docs : list Dict) (field : string) (v : PyVal)
  : option Dict :=
  List.find (fun d => bool_decide (d !! field = Some v)) docs.

Definition get_user_by_username (db : Database) (username : PyVal)
  : Result (option Dict) :=
  match db with
  | Unreachable => Raise EConnection
  | Collection docs => Ok (find_one docs "username" username)
  end.

(** [collection.find] with the projection that excludes [password]: every
    document, without that field. *)
Definition get_all_users (db : Database) : Result (list Dict) :=
  match db with
  | Unreachable => Raise EConnection
  | Collection docs => Ok (map (delete "password") docs)
  end.

(** ** [app/auth/auth_utils.py] *)

(** *** passlib's bcrypt handler

    The handler identifies a hash by its prefix and, to verify, parses it
    into identifier, cost, salt and checksum ([from_string] and the
    constructor's checks), computes the checksum of the secret under the
    same identifier, cost and salt, and compares.  Every refusal of the
    parser is a [ValueError] or a subclass of it. *)

Definition bcrypt_ident_values : list string :=
  ["$2$"; "$2a$"; "$2x$"; "$2y$"; "$2b$"]%string.

Definition bcrypt_identify (hash : string) : bool :=
  existsb (fun ident => String.prefix ident hash) bcrypt_ident_values.

(** The alphabet of salt and checksum ([bcrypt64.charmap]). *)
Definition bcrypt64_charmap : string :=
  "./ABCDEFGHIJKLMNOPQRSTUVWXYZabcdefghijklmnopqrstuvwxyz0123456789".

(** [bcrypt64.check_repair_unused] on a string over the alphabet whose last
    character has [bits] as unused bits (15 when the length is 2 modulo 4,
    3 when it is 3 modulo 4): the bits are cleared, with a warning and no
    error. *)
Definition clear_unused (bits : N) (c : ascii) : ascii :=
  match index_in c bcrypt64_charmap with
  | Some i =>
      default c
        (String.get (N.to_nat (N.ldiff (N.of_nat i) bits)) bcrypt64_charmap)
  | None => c
  end.

Fixpoint repair_unused (bits : N) (source : string) : string :=
  match source with
  | EmptyString => EmptyString
  | String c EmptyString => String (clear_unused bits c) EmptyString
  | String c source' => String c (repair_unused bits source')
  end.

Record BcryptHash : Type := mkBcryptHash {
  bcrypt_ident : string;
  bcrypt_rounds : Z;
  bcrypt_salt : string;
  bcrypt_checksum : option string
}.

(** [_parse_ident]: the identifier and what follows it. *)
Definition parse_ident (hash : string) : option (string * string) :=
  ident ← List.find (fun ident => String.prefix ident hash) bcrypt_ident_values;
  Some (ident, drop_string (String.length ident) hash).

Definition decimal_digit (c : ascii) : option Z :=
  let n := Z.of_nat (nat_of_ascii c) in
  if (48 <=? n) && (n <=? 57) then Some (n - 48) else None.

(** The cost field: [rounds = int(rounds_str)], the check that [rounds_str]
    is ['%02d' % rounds] and the bounds 4 and 31 on the cost let through
    exactly the two-digit decimals from 04 to 31. *)
Definition parse_rounds (rounds_str : string) : option Z :=
  match rounds_str with
  | String d1 (String d2 EmptyString) =>
      tens ← decimal_digit d1;
      units ← decimal_digit d2;
      let rounds := 10 * tens + units in
      if (4 <=? rounds) && (rounds <=? 31) then Some rounds else None
  | _ => None
  end.

(** [from_string], with the checks of the constructor it ends in: the
    identifier [2x] is refused; what follows the identifier is the cost, one
    dollar sign, and the salt of 22 characters followed by nothing or by
    the checksum of 31 characters, all over the alphabet. *)
Definition bcrypt_from_string (hash : string) : Result BcryptHash :=
  match parse_ident hash with
  | None => Raise EValueError
  | Some (ident, tail) =>
      if String.eqb ident "$2x$" then Raise EValueError
      else
        match split "$" tail with
        | [rounds_str; data] =>
            match parse_rounds rounds_str with
            | None => Raise EValueError
            | Some rounds =>
                let salt := take_string 22 data in
                let chk := drop_string 22 data in
                if negb (all_in bcrypt64_charmap salt)
                   || (String.length salt <? 22)%nat
                then Raise EValueError
                else if String.eqb chk EmptyString
                then Ok (mkBcryptHash ident rounds (repair_unused 15 salt)
                           None)
                else if negb (String.length chk =? 31)%nat
                        || negb (all_in bcrypt64_charmap chk)
                then Raise EValueError
                else Ok (mkBcryptHash ident rounds (repair_unused 15 salt)
                           (Some (repair_unused 3 chk)))
            end
        | _ => Raise EValueError
        end
  end.

(** The checksum the bcrypt backend computes for a secret under an
    identifier, a cost and a salt ([validate_secret] and [_calc_checksum]);
    it raises for a secret the backend refuses. *)
Variable bcrypt_calc_checksum :
  string -> Z -> string -> string -> Result string.

(** The handler's [verify(secret, hash)]: a hash without checksum is a
    [MissingDigestError]. *)
Definition bcrypt_verify (secret hash : string) : Result bool :=
  self ← bcrypt_from_string hash;
  match bcrypt_checksum self with
  | None => Raise EValueError
  | Some chk =>
      digest ← bcrypt_calc_checksum (bcrypt_ident self) (bcrypt_rounds self)
                 (bcrypt_salt self) secret;
      Ok (String.eqb digest chk)
  end.

(** [pwd_context.verify(secret, hash)] with bcrypt as only scheme: [False]
    for a missing hash, [UnknownHashError] (a [ValueError]) for a string no
    scheme identifies, and the handler's [verify] for one it identifies. *)
Definition pwd_context_verify (secret : string) (hash : PyVal) : Result bool :=
  match hash with
  | VNone => Ok false
  | VStr h => if bcrypt_identify h then bcrypt_verify secret h
              else Raise EValueError
  | _ => Raise ETypeError
  end.

Definition verify_password (plain_password : string) (hashed_password : PyVal)
  : Result bool :=
  pwd_context_verify plain_password hashed_password.

(** Returns the user record, or [None] where the source returns [False]. *)
Definition authenticate_user (db : Database) (username password : string)
  : option Dict :=
  let body : Result (option Dict) :=
    user ← get_user_by_username db (VStr username);
    match user with
    | None => Ok None
    | Some user =>
        if bool_decide (user = ∅) then Ok None
        else
          hashed ← dict_index user "password";
          ok ← verify_password password hashed;
          if (ok : bool) then Ok (Some user) else Ok None
    end in
  match body with
  | Ok r => r
  | Raise _ => None
  end.

Definition credentials_exception : HTTPException :=
  mkHTTPException HTTP_401_UNAUTHORIZED "Could not validate credentials"
    www_authenticate.

Definition not_enough_permissions : HTTPException :=
  mkHTTPException HTTP_403_FORBIDDEN
    "Not enough permissions. Admin access required." None.

Definition get_current_user (jwt_handler : JWTHandler) (db : Database)
    (now : Z) (token : Token) : Result Dict :=
  let body : Result Dict :=
    payload ← verify_token jwt_handler now token;
    let username := dict_get payload "sub" in
    if bool_decide (username = VNone) then Raise (EHTTP credentials_exception)
    else
      user ← get_user_by_username db username;
      match user with
      | None => Raise (EHTTP credentials_exception)
      | Some user =>
          let user_safe : Dict :=
            filter (fun kv => kv.1 ≠ "password"%string) user in
          Ok user_safe
      end in
  match body with
  | Ok user_safe => Ok user_safe
  | Raise (EHTTP e) => Raise (EHTTP e)
  | Raise _ => Raise (EHTTP credentials_exception)
  end.

Definition get_current_admin_user (current_user : Dict) : Result Dict :=
  if negb (bool_decide (dict_get current_user "username" = VStr "admin"))
     && negb (truthy (dict_get_default current_user "is_admin" (VBool false)))
  then Raise (EHTTP not_enough_permissions)
  else Ok current_user.

(** [Depends(get_current_admin_user)], which itself depends on
    [get_current_user]. *)
Definition depends_current_admin_user (jwt_handler : JWTHandler)
    (db : Database) (now : Z) (token : Token) : Result Dict :=
  current_user ← get_current_user jwt_handler db now token;
  get_current_admin_user current_user.

(** ** [app/middleware.py]: the authentication gate *)

Record JWTMiddleware : Type := mkJWTMiddleware {
  protected_paths : list string;
  excluded_paths : list string
}.

Definition default_protected_paths : list string :=
  ["/users"; "/admin"; "/protected"; "/chat"]%string.

(** [JWTMiddleware.__init__]: [protected_paths or [...]]. *)
Definition JWTMiddleware_init (paths : option (list string)) : JWTMiddleware :=
  {| protected_paths :=
       match paths with
       | Some (p :: ps) => p :: ps
       | Some [] | None => default_protected_paths
       end;
     excluded_paths :=
       ["/auth/token"; "/auth/register"; "/docs"; "/redoc"; "/openapi.json";
        "/health"]%string |}.

(** The instance [app/main.py] installs. *)
Definition app_middleware : JWTMiddleware :=
  JWTMiddleware_init (Some ["/users"; "/admin"; "/protected"]%string).

(** What the gate reads of a request, and the request-scoped state it may
    write. *)
Record Request : Type := mkRequest {
  url_path : string;
  header_authorization : option string;
  state_user : option Dict;
  state_token_payload : option Dict
}.

Record Response : Type := mkResponse {
  content : string;
  response_status_code : Z;
  media_type : string;
  response_headers : list (string * string)
}.

Inductive Dispatched : Type :=
  | CallNext (request : Request)
  | Return (response : Response)
  | Propagate (e : Exc).

Definition dquote : string := String (Ascii.ascii_of_nat 34) EmptyString.

(** The JSON object with the single member [detail], a string. *)
Definition detail_json (d : string) : string :=
  ("{" +:+ dquote +:+ "detail" +:+ dquote +:+ ":" +:+ dquote +:+ d +:+ dquote
   +:+ "}")%string.

Definition missing_header_response : Response :=
  mkResponse (detail_json "Missing or invalid authorization header")
    HTTP_401_UNAUTHORIZED "application/json"
    [("WWW-Authenticate", "Bearer")]%string.

Definition authentication_failed_response : Response :=
  mkResponse (detail_json "Authentication failed")
    HTTP_401_UNAUTHORIZED "application/json"
    [("WWW-Authenticate", "Bearer")]%string.

(** The token a header string denotes (the compact serialization itself is
    not modelled). *)
Variable wire : string -> Token.

Definition dispatch (self : JWTMiddleware) (jwt_handler : JWTHandler) (now : Z)
    (request : Request) : Dispatched :=
  let path := url_path request in
  if existsb (fun excluded => String.prefix excluded path) (excluded_paths self)
  then CallNext request
  else if negb (existsb (fun protected => String.prefix protected path)
                  (protected_paths self))
  then CallNext request
  else
    match header_authorization request with
    | None => Return missing_header_response
    | Some authorization =>
        if String.eqb authorization EmptyString
           || negb (String.prefix "Bearer " authorization)
        then Return missing_header_response
        else
          match split " " authorization !! 1%nat with
          | None => Propagate EIndexError
          | Some token =>
              match verify_token jwt_handler now (wire token) with
              | Ok payload =>
                  CallNext
                    {| url_path := url_path request;
                       header_authorization := header_authorization request;
                       state_user :=
                         Some {[ "username" := dict_get payload "sub" ]};
                       state_token_payload := Some payload |}
              | Raise (EHTTP e) =>
                  Return
                    (mkResponse (detail_json (detail e)) (status_code e)
                       "application/json" (default [] (headers e)))
              | Raise _ => Return authentication_failed_response
              end
          end
    end.

(** ** [app/routers/auth.py]: login *)

Record TokenResponse : Type := mkTokenResponse {
  access_token : Token;
  token_type : string;
  expires_in : Z
}.

Definition incorrect_username_or_password : HTTPException :=
  mkHTTPException HTTP_401_UNAUTHORIZED "Incorrect username or password"
    www_authenticate.

Definition login_failed : HTTPException :=
  mkHTTPException HTTP_500_INTERNAL_SERVER_ERROR "Login failed" None.

Definition login (jwt_handler : JWTHandler) (db : Database) (now : Z)
    (username password : string) : Result TokenResponse :=
  let body : Result TokenResponse :=
    match authenticate_user db username password with
    | None => Raise (EHTTP incorrect_username_or_password)
    | Some user =>
        access_token_expires ←
          timedelta_minutes (access_token_expire_minutes jwt_handler);
        sub ← dict_index user "username";
        token ← create_access_token jwt_handler now {[ "sub" := sub ]}
                  (Some access_token_expires);
        Ok (mkTokenResponse token "bearer"
              (access_token_expire_minutes jwt_handler * 60))
    end in
  match body with
  | Ok r => Ok r
  | Raise (EHTTP e) => Raise (EHTTP e)
  | Raise _ => Raise (EHTTP login_failed)
  end.

(** ** [app/middleware.py]: the logging layer over the login route

    [LoggingMiddleware.dispatch] reads [time.time()] before it hands the
    request on and after the response has come back, and writes the
    difference into the header [X-Process-Time] of every response.  Times
    are in microseconds.  On the login route the calls that take time are
    the round trip of [find_one] and [pwd_context.verify]; what they take
    is a parameter, the rest is taken to be immediate. *)

Variable find_one_time : Z.
Variable pwd_context_verify_time : string -> PyVal -> Z.

(** [authenticate_user] with the time it takes: the source returns before
    it verifies a password when no record is found. *)
Definition authenticate_user_timed (db : Database) (username password : string)
  : option Dict * Z :=
  let elapsed := find_one_time in
  match get_user_by_username db (VStr username) with
  | Ok (Some user) =>
      if bool_decide (user = ∅) then (None, elapsed)
      else
        match dict_index user "password" with
        | Ok hashed =>
            let elapsed := elapsed + pwd_context_verify_time password hashed in
            match verify_password password hashed with
            | Ok true => (Some user, elapsed)
            | _ => (None, elapsed)
            end
        | Raise _ => (None, elapsed)
        end
  | _ => (None, elapsed)
  end.

(** What the application answers below the middleware on this route: the
    response model of the [Token] the route returned, or the JSON response
    FastAPI makes of an [HTTPException]; another exception is not answered
    here.  The headers the CORS layer adds, which depend on the request
    alone, are left out. *)
Inductive Answer : Type :=
  | Body (a : TokenResponse)
  | ErrorResponse (response : Response).

Definition answer (r : Result TokenResponse) : Result Answer :=
  match r with
  | Ok a => Ok (Body a)
  | Raise (EHTTP e) =>
      Ok (ErrorResponse
            (mkResponse (detail_json (detail e)) (status_code e)
               "application/json" (default [] (headers e))))
  | Raise e => Raise e
  end.

(** A response that left the logging layer, with the time its header
    [X-Process-Time] tells: the header holds [str] of that time, which is a
    different text for a different time. *)
Record Logged : Type := mkLogged {
  logged : Answer;
  x_process_time : Z
}.

(** [LoggingMiddleware.dispatch] around a [call_next] that came back at
    [end_time]. *)
Definition LoggingMiddleware_dispatch (start_time end_time : Z)
    (response : Result Answer) : Result Logged :=
  response ← response;
  let process_time := end_time - start_time in
  Ok (mkLogged response process_time).

(** A request to [POST /auth/token] as the client sees it answered. *)
Definition login_request (jwt_handler : JWTHandler) (db : Database) (now : Z)
    (username password : string) (start_time : Z) : Result Logged :=
  let end_time :=
    start_time + (authenticate_user_timed db username password).2 in
  LoggingMiddleware_dispatch start_time end_time
    (answer (login jwt_handler db now username password)).

(** ** [app/routers/users.py]: lookup of a user by name (admin only) *)

(** Whether the [UserResponse] model validates the keyword arguments [d]. *)
Variable response_model_accepts : Dict -> bool.

Definition user_not_found (username : string) : HTTPException :=
  mkHTTPException HTTP_404_NOT_FOUND
    ("User '" +:+ username +:+ "' not found")%string None.

Definition failed_to_get_user : HTTPException :=
  mkHTTPException HTTP_500_INTERNAL_SERVER_ERROR "Failed to get user" None.

(** The result is the record handed to the response model. *)
Definition get_user_by_username_endpoint (jwt_handler : JWTHandler)
    (db : Database) (now : Z) (token : Token) (username : string)
  : Result Dict :=
  _ ← depends_current_admin_user jwt_handler db now token;
  let body : Result Dict :=
    user ← get_user_by_username db (VStr username);
    match user with
    | None => Raise (EHTTP (user_not_found username))
    | Some user =>
        if bool_decide (user = ∅) then Raise (EHTTP (user_not_found username))
        else
          let user_safe : Dict :=
            filter (fun kv => kv.1 ≠ "password"%string) user in
          if response_model_accepts user_safe then Ok user_safe
          else Raise EValueError
    end in
  match body with
  | Ok r => Ok r
  | Raise (EHTTP e) => Raise (EHTTP e)
  | Raise _ => Raise (EHTTP failed_to_get_user)
  end.

(** ** [app/services/database.py]: writes to the user collection

    A write takes the collection and returns the collection it leaves. *)

(** The [ObjectId] the driver generates for a document stored beside
    [docs]. *)
Variable new_object_id : list Dict -> string.

(** Whether the unique index on [field] forbids [doc] beside [docs]; a
    document without the field is indexed under [None]. *)
Definition index_conflict (field : string) (doc : Dict) (docs : list Dict)
  : bool :=
  existsb (fun d => bool_decide (dict_get d field = dict_get doc field)) docs.

(** What BSON keeps of a value: a [datetime] to the millisecond, every
    other value as it is. *)
Definition bson_value (v : PyVal) : PyVal :=
  match v with
  | VDatetime us => VDatetime (us / 1000 * 1000)
  | v => v
  end.

(** The document as it is stored and read back. *)
Definition bson_document (doc : Dict) : Dict := bson_value <$> doc.

(** BSON holds integers of up to eight bytes; the driver refuses a larger
    one with [OverflowError] when it encodes the document. *)
Definition bson_int (v : PyVal) : Prop :=
  match v with
  | VInt n => - 2 ^ 63 <= n < 2 ^ 63
  | _ => True
  end.

#[global] Instance bson_int_dec v : Decision (bson_int v).
Proof. destruct v; simpl; apply _. Defined.

Definition bson_encodable (doc : Dict) : bool :=
  bool_decide (map_Forall (fun _ v => bson_int v) doc).

(** [collection.insert_one(doc)] under the unique indexes on [_id] and on
    [username] (the latter created by [connect_to_mongo]).  The driver adds
    the [_id] where there is none and encodes the document; the result is
    the inserted id and the collection that results, or [None] where the
    server answers with [DuplicateKeyError].  Field names and strings are
    taken to be ones BSON holds. *)
Definition insert_one (docs : list Dict) (doc : Dict)
  : Result (option (PyVal * list Dict)) :=
  let doc :=
    match doc !! "_id" with
    | Some _ => doc
    | None => <["_id" := VObjectId (new_object_id docs)]> doc
    end in
  if negb (bson_encodable doc) then Raise EOverflowError
  else
    let doc := bson_document doc in
    if index_conflict "_id" doc docs || index_conflict "username" doc docs
    then Ok None
    else Ok (Some (dict_get doc "_id", docs ++ [doc])).

(** [DuplicateKeyError] becomes [ValueError("Username already exists")];
    every other exception leaves the function as it is. *)
Definition create_user (db : Database) (user_data : Dict)
  : Result PyVal * Database :=
  match db with
  | Unreachable => (Raise EConnection, db)
  | Collection docs =>
      match insert_one docs user_data with
      | Ok (Some (inserted_id, docs')) => (Ok inserted_id, Collection docs')
      | Ok None => (Raise EValueError, db)
      | Raise e => (Raise e, db)
      end
  end.

(** [collection.update_one] with an equality filter [field = v] and the
    update that sets [k] to [x], a value BSON keeps as it is: the modified
    count and the collection that results.  A document that already holds
    [x] under [k] is matched but not modified. *)
Fixpoint update_one (docs : list Dict) (field : string) (v : PyVal)
    (k : string) (x : PyVal) : Z * list Dict :=
  match docs with
  | [] => (0, [])
  | d :: ds =>
      if bool_decide (d !! field = Some v)
      then ((if bool_decide (d !! k = Some x) then 0 else 1),
            <[k := x]> d :: ds)
      else let '(n, ds') := update_one ds field v k x in (n, d :: ds')
  end.

Definition update_user_password (db : Database) (username : PyVal)
    (hashed_password : string) : Result bool * Database :=
  match db with
  | Unreachable => (Raise EConnection, db)
  | Collection docs =>
      let '(modified_count, docs') :=
        update_one docs "username" username "password" (VStr hashed_password) in
      (Ok (modified_count >? 0), Collection docs')
  end.

(** [collection.delete_one] with an equality filter [field = v]: the
    deleted count and the collection that results. *)
Fixpoint delete_one (docs : list Dict) (field : string) (v : PyVal)
  : Z * list Dict :=
  match docs with
  | [] => (0, [])
  | d :: ds =>
      if bool_decide (d !! field = Some v) then (1, ds)
      else let '(n, ds') := delete_one ds field v in (n, d :: ds')
  end.

Definition delete_user (db : Database) (username : PyVal)
  : Result bool * Database :=
  match db with
  | Unreachable => (Raise EConnection, db)
  | Collection docs =>
      let '(deleted_count, docs') := delete_one docs "username" username in
      (Ok (deleted_count >? 0), Collection docs')
  end.

(** ** [app/auth/auth_utils.py]: hashing and the password rule *)

(** [pwd_context.hash(secret)]; the first argument is the salt the call
    draws. *)
Variable pwd_context_hash : string -> string -> Result string.

Definition get_password_hash (salt password : string) : Result string :=
  pwd_context_hash salt password.

Definition HTTP_400_BAD_REQUEST : Z := 400.

Definition password_too_short : HTTPException :=
  mkHTTPException HTTP_400_BAD_REQUEST
    "Password must be at least 8 characters long" None.

Definition validate_password_strength (password : string) : Result bool :=
  if (len password <? 8)%nat then Raise (EHTTP password_too_short)
  else Ok true.

(** ** [app/routers/auth.py]: registration, refresh and password change *)

Record APIResponse : Type := mkAPIResponse {
  message : string;
  success : bool;
  data : option Dict
}.

(** [str(dt)] of a [datetime]. *)
Variable datetime_str : Z -> string.

(** [str(v)]. *)
Definition py_str (v : PyVal) : string :=
  match v with
  | VNone => "None"
  | VBool true => "True"
  | VBool false => "False"
  | VInt n => pretty n
  | VStr s => s
  | VDatetime us => datetime_str us
  | VObjectId hex => hex
  end.

(** [str(e)] of the [ValueError] that hashing a password raises, where it
    raises one. *)
Variable hash_value_error : string -> string.

Definition registration_failed : HTTPException :=
  mkHTTPException HTTP_500_INTERNAL_SERVER_ERROR "Registration failed" None.

Definition bad_request (detail : string) : HTTPException :=
  mkHTTPException HTTP_400_BAD_REQUEST detail None.

(** The body of [register_user] on a validated [UserCreate].  The handlers
    are [except ValueError] (400 with the text of the error) and
    [except Exception] (500); there is none that re-raises an
    [HTTPException], so the one of [validate_password_strength] meets the
    second. *)
Definition register_user (salt : string) (db : Database) (now : Z)
    (username password : string) (is_admin : bool)
  : Result APIResponse * Database :=
  match validate_password_strength password with
  | Raise _ => (Raise (EHTTP registration_failed), db)
  | Ok _ =>
      match get_password_hash salt password with
      | Raise EValueError =>
          (Raise (EHTTP (bad_request (hash_value_error password))), db)
      | Raise _ => (Raise (EHTTP registration_failed), db)
      | Ok hashed_password =>
          let user_data : Dict :=
            {[ "username" := VStr username;
               "password" := VStr hashed_password;
               "is_admin" := VBool is_admin;
               "created_at" := VDatetime now;
               "is_active" := VBool true;
               "last_login" := VNone ]} in
          match create_user db user_data with
          | (Ok user_id, db') =>
              (Ok (mkAPIResponse "User registered successfully" true
                     (Some {[ "user_id" := VStr (py_str user_id);
                              "username" := VStr username ]})),
               db')
          | (Raise EValueError, db') =>
              (Raise (EHTTP (bad_request "Username already exists")), db')
          | (Raise _, db') => (Raise (EHTTP registration_failed), db')
          end
      end
  end.

Definition token_refresh_failed : HTTPException :=
  mkHTTPException HTTP_500_INTERNAL_SERVER_ERROR "Token refresh failed" None.

(** The route [POST /auth/refresh]. *)
Definition refresh_token_endpoint (jwt_handler : JWTHandler) (now : Z)
    (current_token : Token) : Result TokenResponse :=
  let body : Result TokenResponse :=
    new_token ← refresh_token jwt_handler now current_token;
    Ok (mkTokenResponse new_token "bearer"
          (access_token_expire_minutes jwt_handler * 60)) in
  match body with
  | Ok r => Ok r
  | Raise (EHTTP e) => Raise (EHTTP e)
  | Raise _ => Raise (EHTTP token_refresh_failed)
  end.

Definition current_password_incorrect : HTTPException :=
  bad_request "Current password is incorrect".

Definition failed_to_update_password : HTTPException :=
  mkHTTPException HTTP_500_INTERNAL_SERVER_ERROR "Failed to update password"
    None.

Definition password_change_failed : HTTPException :=
  mkHTTPException HTTP_500_INTERNAL_SERVER_ERROR "Password change failed" None.

(** Turns what a [try] body raised into what the handlers
    [except HTTPException: raise] and [except Exception] let out. *)
Definition reraise_http {A} (fallback : HTTPException) (r : Result A)
  : Result A :=
  match r with
  | Ok a => Ok a
  | Raise (EHTTP e) => Raise (EHTTP e)
  | Raise _ => Raise (EHTTP fallback)
  end.

(** The body of [change_password] for the [current_user] its dependency
    resolved.  [None["password"]] is a [TypeError].  The general handler
    formats [current_user['username']] into its log line before it raises
    the 500, so for a [current_user] without that key the [KeyError] of the
    first statement is raised again by the handler itself and is what
    leaves the function. *)
Definition change_password (salt : string) (db : Database)
    (current_user : Dict) (current_password new_password : string)
  : Result APIResponse * Database :=
  match dict_index current_user "username" with
  | Raise e => (Raise e, db)
  | Ok username =>
      let checked : Result string :=
        user_with_password ← get_user_by_username db username;
        stored ← match user_with_password with
                 | Some user => dict_index user "password"
                 | None => Raise ETypeError
                 end;
        ok ← verify_password current_password stored;
        if negb ok then Raise (EHTTP current_password_incorrect)
        else
          _ ← validate_password_strength new_password;
          get_password_hash salt new_password in
      match checked with
      | Raise e => (reraise_http password_change_failed (Raise e), db)
      | Ok new_hashed_password =>
          match update_user_password db username new_hashed_password with
          | (Ok true, db') =>
              (Ok (mkAPIResponse "Password updated successfully" true None),
               db')
          | (Ok false, db') => (Raise (EHTTP failed_to_update_password), db')
          | (Raise e, db') =>
              (reraise_http password_change_failed (Raise e), db')
          end
      end
  end.

(** ** [app/routers/users.py]: profile, listing and deletion *)

Definition failed_to_get_user_profile : HTTPException :=
  mkHTTPException HTTP_500_INTERNAL_SERVER_ERROR "Failed to get user profile"
    None.

(** [GET /users/me]; the result is the record handed to the response
    model. *)
Definition get_current_user_profile (current_user : Dict) : Result Dict :=
  if response_model_accepts current_user then Ok current_user
  else Raise (EHTTP failed_to_get_user_profile).

(** [l[start:stop]]. *)
Definition py_slice {A} (l : list A) (start stop : Z) : list A :=
  let n := Z.of_nat (length l) in
  let clamp (i : Z) := if i <? 0 then Z.max 0 (i + n) else Z.min i n in
  let s := clamp start in
  let e := clamp stop in
  take (Z.to_nat (e - s)) (drop (Z.to_nat s) l).

Record UserList : Type := mkUserList {
  users : list Dict;
  total : Z
}.

Definition failed_to_get_users_list : HTTPException :=
  mkHTTPException HTTP_500_INTERNAL_SERVER_ERROR "Failed to get users list"
    None.

(** The body of [get_users_list]; its only handler is [except Exception]. *)
Definition get_users_list (db : Database) (skip limit : Z) : Result UserList :=
  let body : Result UserList :=
    all_users ← get_all_users db;
    let paginated_users := py_slice all_users skip (skip + limit) in
    if forallb response_model_accepts paginated_users
    then Ok (mkUserList paginated_users (Z.of_nat (length all_users)))
    else Raise EValueError in
  match body with
  | Ok r => Ok r
  | Raise _ => Raise (EHTTP failed_to_get_users_list)
  end.

Definition failed_to_delete_user_account : HTTPException :=
  mkHTTPException HTTP_500_INTERNAL_SERVER_ERROR
    "Failed to delete user account" None.

(** The body of [delete_current_user].  As in [change_password], the
    general handler indexes [current_user] for its log line, so the
    [KeyError] of a [current_user] without a [username] leaves the function
    as it is. *)
Definition delete_current_user (db : Database) (current_user : Dict)
  : Result APIResponse * Database :=
  match dict_index current_user "username" with
  | Raise e => (Raise e, db)
  | Ok username =>
      match delete_user db username with
      | (Ok true, db') =>
          (Ok (mkAPIResponse "User account deleted successfully" true None),
           db')
      | (_, db') => (Raise (EHTTP failed_to_delete_user_account), db')
      end
  end.

Definition cannot_delete_own_account : HTTPException :=
  bad_request
    "Cannot delete your own account via this endpoint. Use /users/me instead.".

Definition failed_to_delete_user : HTTPException :=
  mkHTTPException HTTP_500_INTERNAL_SERVER_ERROR "Failed to delete user" None.

(** The body of [delete_user_by_username] for the admin [current_user] its
    dependency resolved. *)
Definition delete_user_by_username (db : Database) (current_user : Dict)
    (username : string) : Result APIResponse * Database :=
  let checked : Result unit :=
    user ← get_user_by_username db (VStr username);
    match user with
    | None => Raise (EHTTP (user_not_found username))
    | Some user =>
        if bool_decide (user = ∅)
        then Raise (EHTTP (user_not_found username))
        else
          own ← dict_index current_user "username";
          if bool_decide (VStr username = own)
          then Raise (EHTTP cannot_delete_own_account)
          else Ok tt
    end in
  match checked with
  | Raise e => (reraise_http failed_to_delete_user (Raise e), db)
  | Ok _ =>
      match delete_user db (VStr username) with
      | (Ok true, db') =>
          (Ok (mkAPIResponse
                 ("User '" +:+ username +:+ "' deleted successfully")%string
                 true None),
           db')
      | (Ok false, db') => (Raise (EHTTP failed_to_delete_user), db')
      | (Raise e, db') => (reraise_http failed_to_delete_user (Raise e), db')
      end
  end.

(** ** Sample data *)

Definition sample_handler : JWTHandler := mkJWTHandler "s3cret" "HS256" 30.

(** 2023-11-14T22:13:20.123456 UTC. *)
Definition sample_now : Z := 1700000000123456.

Definition alice_claims : Dict :=
  {[ "sub" := VStr "alice"; "exp" := VInt 1700001800;
     "iat" := VInt 1700000000 ]}.

Definition alice_token : Token := Signed "HS256" "s3cret" alice_claims.

Definition admin_claims : Dict :=
  {[ "sub" := VStr "admin"; "exp" := VInt 1700001800;
     "iat" := VInt 1700000000 ]}.

Definition admin_token : Token := Signed "HS256" "s3cret" admin_claims.

(** Correctly signed, but without an expiry claim. *)
Definition undated_token : Token :=
  Signed "HS256" "s3cret" {[ "sub" := VStr "alice" ]}.

(** Correctly signed, but without a subject claim. *)
Definition anonymous_token : Token :=
  Signed "HS256" "s3cret" {[ "exp" := VInt 1700001800 ]}.

(** Signed with another secret. *)
Definition forged_token : Token := Signed "HS256" "guess" alice_claims.

(** A salt, and hashes with it: identifier [2b], cost 12, the salt and the
    checksum that [sample_calc_checksum] below gives one password each. *)
Definition sample_salt : string := "N9qo8uLOickgx2ZMRZoMye".

Definition alice_hash : string :=
  "$2b$12$N9qo8uLOickgx2ZMRZoMyeIjZAgcfl7p92ldGxad68LJZdL17lhWy".

Definition admin_hash : string :=
  "$2b$12$N9qo8uLOickgx2ZMRZoMyeXlZ1yqQ0Nf8mA3Tn4uJwV5rG9sKbD2e".

Definition bob_hash : string :=
  "$2b$12$N9qo8uLOickgx2ZMRZoMyeTq8mZ1xN4vB7cL0kJ5hG2fD9sA6pWuO".

Definition open_sesame_hash : string :=
  "$2b$12$N9qo8uLOickgx2ZMRZoMyed3Kf8Lq1Zx7Vb2Nm6Hy4Tg9Rj5Wc0Pu".

Definition battery_staple_hash : string :=
  "$2b$12$N9qo8uLOickgx2ZMRZoMyeYh2Bn7Mk4Jt9Gr1Fe6Dc3Xs8Wz5Va0q".

Definition alice_record : Dict :=
  {[ "_id" := VObjectId "65539f0a2b1c4d5e6f708192";
     "username" := VStr "alice";
     "password" := VStr alice_hash;
     "is_admin" := VBool false;
     "created_at" := VDatetime 1690000000000000;
     "is_active" := VBool true;
     "last_login" := VNone ]}.

Definition admin_record : Dict :=
  {[ "_id" := VObjectId "65539f0a2b1c4d5e6f708193";
     "username" := VStr "admin";
     "password" := VStr admin_hash;
     "is_admin" := VBool false;
     "created_at" := VDatetime 1690000000000000;
     "is_active" := VBool true;
     "last_login" := VNone ]}.

Definition sample_db : Database := Collection [alice_record; admin_record].

(** Instances of the parameters for the samples: no sample carries a
    string-valued time claim, the checksum is a table of the sample
    passwords, header strings are not decoded, and the response model
    accepts the sample records. *)
Definition sample_int_of_str (s : string) : option Z := None.

Definition sample_calc_checksum (ident : string) (rounds : Z)
    (salt secret : string) : Result string :=
  Ok (if String.eqb secret "wonderland"
      then "IjZAgcfl7p92ldGxad68LJZdL17lhWy"
      else if String.eqb secret "root-pass"
      then "XlZ1yqQ0Nf8mA3Tn4uJwV5rG9sKbD2e"
      else if String.eqb secret "correct-horse"
      then "Tq8mZ1xN4vB7cL0kJ5hG2fD9sA6pWuO"
      else if String.eqb secret "open-sesame"
      then "d3Kf8Lq1Zx7Vb2Nm6Hy4Tg9Rj5Wc0Pu"
      else if String.eqb secret "battery-staple"
      then "Yh2Bn7Mk4Jt9Gr1Fe6Dc3Xs8Wz5Va0q"
      else "C6UzMDM.H6dfI/f/IKcEeOG8Xkq9s1m")%string.

(** A lookup that takes two milliseconds and a password verification that
    takes a quarter of a second. *)
Definition sample_find_one_time : Z := 2000.

Definition sample_verify_time (secret : string) (hash : PyVal) : Z := 250000.

Definition sample_wire (s : string) : Token := Garbage s.

Definition sample_accepts (d : Dict) : bool := true.

(** Further instances for the samples: a generated id that no sample record
    has, the hash made of the drawn salt and the sample checksum, and a
    header decoder that knows one token. *)
Definition sample_new_object_id (docs : list Dict) : string :=
  "65539f0a2b1c4d5e6f7081ff".

Definition toy_hash (salt secret : string) : Result string :=
  chk ← sample_calc_checksum "$2b$" 12 salt secret;
  Ok ("$2b$12$" +:+ salt +:+ chk)%string.

Definition sample_datetime_str (us : Z) : string := "2023-11-14 22:13:20".

Definition sample_hash_value_error (password : string) : string :=
  "invalid password".

Definition alice_wire (s : string) : Token :=
  if String.eqb s "alice.jwt" then alice_token else Garbage s.

Definition bob_record : Dict :=
  {[ "_id" := VObjectId "65539f0a2b1c4d5e6f708194";
     "username" := VStr "bob";
     "password" := VStr bob_hash;
     "is_admin" := VBool false;
     "created_at" := VDatetime 1690000000000000;
     "is_active" := VBool true;
     "last_login" := VNone ]}.

Definition bob_claims : Dict :=
  {[ "sub" := VStr "bob"; "exp" := VInt 1700001800;
     "iat" := VInt 1700000000 ]}.

Definition bob_token : Token := Signed "HS256" "s3cret" bob_claims.

Definition toy_db : Database := Collection [bob_record; admin_record].

(** ** Vocabulary of the statements *)

(** The exceptions the library layer can raise. *)
Definition library_error (e : Exc) : Prop := e = EJWTError ∨ e = ETypeError.

(** The default lifetime is a [timedelta] and the expiry instant a
    [datetime]. *)
Definition expiry_representable (self : JWTHandler) (now : Z) : Prop :=
  timedelta_min <= access_token_expire_minutes self * 60000000
    <= timedelta_max ∧
  datetime_min <= now + access_token_expire_minutes self * 60000000
    <= datetime_max.

(** The lifetime [create_access_token] gives a token, in microseconds: a
    zero [expires_delta] counts as none. *)
Definition lifetime (self : JWTHandler) (expires_delta : option Z) : Z :=
  match expires_delta with
  | Some d => if d =? 0 then access_token_expire_minutes self * 60000000 else d
  | None => access_token_expire_minutes self * 60000000
  end.

(** The gate checks the token of the request: no excluded prefix matches
    its path and some protected prefix does. *)
Definition guarded (self : JWTMiddleware) (request : Request) : Prop :=
  (∀ excluded, excluded ∈ excluded_paths self →
     String.prefix excluded (url_path request) = false) ∧
  ∃ protected, protected ∈ protected_paths self ∧
     String.prefix protected (url_path request) = true.

(** Whether the character occurs in the string. *)
Fixpoint has_char (c : ascii) (s : string) : bool :=
  match s with
  | EmptyString => false
  | String c' s' => Ascii.eqb c' c || has_char c s'
  end.

(** The record [register_user] hands to [create_user]. *)
Definition new_user_data (username hashed_password : string) (is_admin : bool)
    (now : Z) : Dict :=
  {[ "username" := VStr username;
     "password" := VStr hashed_password;
     "is_admin" := VBool is_admin;
     "created_at" := VDatetime now;
     "is_active" := VBool true;
     "last_login" := VNone ]}.

(** The unique index on [username]. *)
Definition unique_usernames (docs : list Dict) : Prop :=
  NoDup (map (fun d => dict_get d "username") docs).

(** * Properties *)

(** ** Results *)

Lemma bind_Ok_inv {A B} (m : Result A) (f : A → Result B) b :
  m ≫= f = Ok b → ∃ a, m = Ok a ∧ f a = Ok b.
Proof. destruct m as [a | e]; simpl; [eauto | discriminate]. Qed.

Lemma bind_Raise_inv {A B} (m : Result A) (f : A → Result B) e :
  m ≫= f = Raise e → m = Raise e ∨ ∃ a, m = Ok a ∧ f a = Raise e.
Proof. destruct m as [a | e']; simpl; [eauto | intros [= ->]; auto]. Qed.

(** ** The library layer *)

Lemma jws_verify_inv token key algorithms claims :
  jws_verify token key algorithms = Ok claims →
  ∃ a, token = Signed a key claims ∧ a ∈ algorithms ∧ is_hmac a = true.
Proof.
  destruct token as [raw | a k c]; simpl; [discriminate |].
  destruct (bool_decide (a ∈ algorithms)) eqn:Ha; simpl; [| discriminate].
  destruct (is_hmac a) eqn:Hh; simpl; [| discriminate].
  destruct (bool_decide (k = key)) eqn:Hk; [| discriminate].
  intros [= <-]. apply bool_decide_eq_true in Hk as ->.
  apply bool_decide_eq_true in Ha. eauto.
Qed.

Lemma jws_verify_raises token key algorithms e :
  jws_verify token key algorithms = Raise e → e = EJWTError.
Proof.
  destruct token as [raw | a k c]; simpl; [congruence |].
  destruct (_ && _); congruence.
Qed.

Lemma jws_verify_other_secret a k claims key algorithms :
  k ≠ key → jws_verify (Signed a k claims) key algorithms = Raise EJWTError.
Proof.
  intros Hk. simpl. rewrite (bool_decide_eq_false_2 (k = key)) by done.
  by rewrite andb_false_r.
Qed.

Lemma jws_verify_signed key a claims :
  is_hmac a = true → jws_verify (Signed a key claims) key [a] = Ok claims.
Proof.
  intros Hh. simpl. rewrite Hh.
  rewrite !bool_decide_eq_true_2; [done | done | apply list_elem_of_here].
Qed.

Lemma int_claim_raises claims k e :
  int_claim claims k = Raise e → library_error e.
Proof.
  unfold int_claim, library_error.
  destruct (claims !! k) as [v |]; [| discriminate].
  destruct v as [| b | n | s | us | hex]; simpl; try (intros [= <-]; auto).
  destruct (int_of_str s); [discriminate | intros [= <-]; auto].
Qed.

Lemma validate_iat_raises claims e :
  validate_iat claims = Raise e → library_error e.
Proof.
  intros [H | (? & _ & [=])]%bind_Raise_inv. eauto using int_claim_raises.
Qed.

Lemma validate_nbf_raises now claims e :
  validate_nbf now claims = Raise e → library_error e.
Proof.
  intros [H | ([nbf |] & _ & H)]%bind_Raise_inv;
    [eauto using int_claim_raises | | discriminate].
  destruct (nbf >? timegm now); [injection H as <-; by left | discriminate].
Qed.

Lemma validate_exp_raises now claims e :
  validate_exp now claims = Raise e → library_error e.
Proof.
  intros [H | ([exp |] & _ & H)]%bind_Raise_inv;
    [eauto using int_claim_raises | | discriminate].
  destruct (exp <? timegm now); [injection H as <-; by left | discriminate].
Qed.

Lemma validate_aud_raises claims e :
  validate_aud claims = Raise e → library_error e.
Proof.
  unfold validate_aud. destruct (claims !! "aud"); intros [= <-]. by left.
Qed.

Lemma validate_str_claim_raises claims k e :
  validate_str_claim claims k = Raise e → library_error e.
Proof.
  unfold validate_str_claim.
  destruct (claims !! k) as [[] |]; intros [= <-]; by left.
Qed.

Lemma validate_at_hash_raises claims e :
  validate_at_hash claims = Raise e → library_error e.
Proof.
  unfold validate_at_hash. destruct (claims !! "at_hash"); intros [= <-].
  by left.
Qed.

Lemma validate_claims_raises now claims e :
  validate_claims now claims = Raise e → library_error e.
Proof.
  unfold validate_claims. intros H.
  repeat (apply bind_Raise_inv in H as [H | (_ & _ & H)];
          [eauto using validate_iat_raises, validate_nbf_raises,
             validate_exp_raises, validate_aud_raises,
             validate_str_claim_raises |]).
  eauto using validate_at_hash_raises.
Qed.

Lemma jwt_decode_raises now token key algorithms e :
  jwt_decode now token key algorithms = Raise e → library_error e.
Proof.
  unfold jwt_decode.
  intros [H | (claims & _ & H)]%bind_Raise_inv.
  - left. eauto using jws_verify_raises.
  - apply bind_Raise_inv in H as [H | (_ & _ & [=])].
    eauto using validate_claims_raises.
Qed.

Lemma validate_claims_Ok_inv now claims u :
  validate_claims now claims = Ok u →
  validate_exp now claims = Ok tt ∧ validate_str_claim claims "sub" = Ok tt.
Proof.
  unfold validate_claims. intros H.
  apply bind_Ok_inv in H as (_ & _ & H).
  apply bind_Ok_inv in H as (_ & _ & H).
  apply bind_Ok_inv in H as ([] & Hexp & H).
  apply bind_Ok_inv in H as (_ & _ & H).
  apply bind_Ok_inv in H as ([] & Hsub & H).
  done.
Qed.

Lemma validate_str_claim_Ok claims k :
  validate_str_claim claims k = Ok tt →
  claims !! k = None ∨ ∃ s, claims !! k = Some (VStr s).
Proof.
  unfold validate_str_claim.
  destruct (claims !! k) as [[] |]; try discriminate; eauto.
Qed.

Lemma validate_exp_expired now claims e :
  claims !! "exp" = Some (VInt e) → e < timegm now →
  validate_exp now claims = Raise EJWTError.
Proof.
  intros He Hlt. unfold validate_exp, int_claim. rewrite He. simpl.
  by rewrite (proj2 (Z.ltb_lt _ _) Hlt).
Qed.

Lemma jwt_decode_Ok_inv now token key algorithms payload :
  jwt_decode now token key algorithms = Ok payload →
  jws_verify token key algorithms = Ok payload ∧
  validate_claims now payload = Ok tt.
Proof.
  unfold jwt_decode. intros (claims & Hv & H)%bind_Ok_inv.
  apply bind_Ok_inv in H as ([] & Hc & [= ->]). done.
Qed.

Lemma jwt_decode_sub now token key algorithms payload :
  jwt_decode now token key algorithms = Ok payload →
  payload !! "sub" = None ∨ ∃ s, payload !! "sub" = Some (VStr s).
Proof.
  intros [_ Hc]%jwt_decode_Ok_inv.
  apply validate_claims_Ok_inv in Hc as [_ Hs].
  by apply validate_str_claim_Ok.
Qed.

(** ** [verify_token] *)

Lemma fromtimestamp_raises ts e :
  fromtimestamp ts = Raise e → e ≠ EJWTError.
Proof.
  destruct ts as [| b | n | s | us | hex]; simpl;
    repeat case_match; congruence.
Qed.

(** What [verify_token] does once the library has returned a claim set. *)
Lemma verify_token_decoded self now token payload :
  jwt_decode now token (secret_key self) [algorithm self] = Ok payload →
  verify_token self now token =
    if bool_decide (dict_get payload "sub" = VNone)
    then Raise (EHTTP invalid_credentials)
    else if bool_decide (dict_get payload "exp" = VNone)
    then Raise (EHTTP token_expired)
    else match fromtimestamp (dict_get payload "exp") with
         | Ok limit =>
             if now >? limit then Raise (EHTTP token_expired) else Ok payload
         | Raise e => Raise e
         end.
Proof.
  intros Hd. unfold verify_token. rewrite Hd. simpl.
  case_bool_decide; [done |].
  case_bool_decide; [done |].
  destruct (fromtimestamp (dict_get payload "exp")) as [limit | e] eqn:Hf;
    simpl.
  - by destruct (now >? limit).
  - apply fromtimestamp_raises in Hf. by destruct e.
Qed.

(** What it does when the library raises. *)
Lemma verify_token_rejected self now token e :
  jwt_decode now token (secret_key self) [algorithm self] = Raise e →
  verify_token self now token =
    Raise (if bool_decide (e = EJWTError) then EHTTP invalid_credentials else e).
Proof.
  intros Hd. unfold verify_token. rewrite Hd. simpl.
  apply jwt_decode_raises in Hd as [-> | ->]; done.
Qed.

Lemma verify_token_bad_signature self now token :
  jws_verify token (secret_key self) [algorithm self] = Raise EJWTError →
  verify_token self now token = Raise (EHTTP invalid_credentials).
Proof.
  intros Hv. rewrite (verify_token_rejected _ _ _ EJWTError); [done |].
  unfold jwt_decode. by rewrite Hv.
Qed.

Lemma verify_token_Ok_inv self now token payload :
  verify_token self now token = Ok payload →
  jwt_decode now token (secret_key self) [algorithm self] = Ok payload ∧
  (∃ s, payload !! "sub" = Some (VStr s)) ∧
  ∃ limit, fromtimestamp (dict_get payload "exp") = Ok limit ∧ now <= limit.
Proof.
  intros H.
  destruct (jwt_decode now token (secret_key self) [algorithm self])
    as [p | e] eqn:Hd.
  - rewrite (verify_token_decoded _ _ _ _ Hd) in H.
    case_bool_decide as Hsub; [discriminate |].
    case_bool_decide as Hexp; [discriminate |].
    destruct (fromtimestamp (dict_get p "exp")) as [limit |] eqn:Hf;
      [| discriminate].
    destruct (now >? limit) eqn:Hgt; [discriminate |].
    injection H as ->. split; [done |]. split.
    + destruct (jwt_decode_sub _ _ _ _ _ Hd) as [Hn | Hs]; [| done].
      exfalso. apply Hsub. unfold dict_get. by rewrite Hn.
    + exists limit. split; [done | lia].
  - rewrite (verify_token_rejected _ _ _ _ Hd) in H. discriminate.
Qed.

(** A token that is at least one whole second past its expiry is turned
    down by the library, so the handler reports it like a forged one. *)
Lemma verify_token_past_expiry self now a k claims e :
  claims !! "exp" = Some (VInt e) → e < timegm now →
  validate_claims now claims ≠ Raise ETypeError →
  verify_token self now (Signed a k claims) = Raise (EHTTP invalid_credentials).
Proof.
  intros He Hlt Hty.
  destruct (jws_verify (Signed a k claims) (secret_key self) [algorithm self])
    as [c | e'] eqn:Hv.
  - assert (c = claims) as ->.
    { apply jws_verify_inv in Hv as (? & [= _ _ ->] & _). done. }
    destruct (validate_claims now claims) as [[] | e'] eqn:Hc.
    + apply validate_claims_Ok_inv in Hc as [Hexp _].
      rewrite (validate_exp_expired _ _ _ He Hlt) in Hexp. discriminate.
    + destruct (validate_claims_raises _ _ _ Hc) as [-> | ->]; [| done].
      rewrite (verify_token_rejected _ _ _ EJWTError); [done |].
      unfold jwt_decode. rewrite Hv. simpl. by rewrite Hc.
  - apply jws_verify_raises in Hv as Heq. subst e'.
    by apply verify_token_bad_signature.
Qed.

(** C4 (amended): [verify_token] answers with the invalid-credentials error
    when the signature does not verify under the configured secret and
    algorithm, and when the subject claim is absent (claim validation not
    aborting on an ill-typed time claim); when the subject is present, the
    library accepts the token and the expiry claim is absent, it answers
    with the token-expired error instead. *)
Theorem verify_token_failure_kinds self now token :
  (jws_verify token (secret_key self) [algorithm self] = Raise EJWTError →
   verify_token self now token = Raise (EHTTP invalid_credentials)) ∧
  (∀ a k claims,
     token = Signed a k claims → claims !! "sub" = None →
     validate_claims now claims ≠ Raise ETypeError →
     verify_token self now token = Raise (EHTTP invalid_credentials)) ∧
  (∀ payload,
     jwt_decode now token (secret_key self) [algorithm self] = Ok payload →
     is_Some (payload !! "sub") → payload !! "exp" = None →
     verify_token self now token = Raise (EHTTP token_expired)).
Proof.
  split; [apply verify_token_bad_signature | split].
  - intros a k claims -> Hsub Hty.
    destruct (jwt_decode now (Signed a k claims) (secret_key self)
                [algorithm self]) as [p | e] eqn:Hd.
    + rewrite (verify_token_decoded _ _ _ _ Hd).
      apply jwt_decode_Ok_inv in Hd as [Hv _].
      apply jws_verify_inv in Hv as (? & [= _ _ ->] & _).
      unfold dict_get. rewrite Hsub. done.
    + rewrite (verify_token_rejected _ _ _ _ Hd).
      destruct (jwt_decode_raises _ _ _ _ _ Hd) as [-> | ->]; [done |].
      exfalso. unfold jwt_decode in Hd.
      apply bind_Raise_inv in Hd as [Hd | (c & Hv & Hd)].
      * apply jws_verify_raises in Hd. discriminate.
      * apply jws_verify_inv in Hv as (? & [= _ _ ->] & _).
        apply bind_Raise_inv in Hd as [Hd | (_ & _ & [=])]. done.
  - intros payload Hd [v Hsub] Hexp.
    rewrite (verify_token_decoded _ _ _ _ Hd).
    destruct (jwt_decode_sub _ _ _ _ _ Hd) as [Hn | [s Hs]]; [congruence |].
    unfold dict_get. rewrite Hs, Hexp. done.
Qed.

(** ** [create_access_token] and [refresh_token] *)

Lemma encoded_claims now expire u :
  convert_time_claim "nbf"
    (convert_time_claim "iat"
       (convert_time_claim "exp"
          (<["iat" := VDatetime now]>
             (<["exp" := VDatetime expire]> {[ "sub" := VStr u ]})))) =
  ({[ "sub" := VStr u; "exp" := VInt (timegm expire);
      "iat" := VInt (timegm now) ]} : Dict).
Proof. reflexivity. Qed.

Lemma create_access_token_sub self now u :
  is_hmac (algorithm self) = true →
  expiry_representable self now →
  create_access_token self now {[ "sub" := VStr u ]} None =
    Ok (Signed (algorithm self) (secret_key self)
          {[ "sub" := VStr u;
             "exp" := VInt (timegm (now + access_token_expire_minutes self
                                            * 60000000));
             "iat" := VInt (timegm now) ]}).
Proof.
  intros Hh [Htd Hr].
  unfold create_access_token, timedelta_minutes, datetime_add.
  cbv zeta.
  rewrite (proj2 (Z.leb_le _ _) (proj1 Htd)), (proj2 (Z.leb_le _ _) (proj2 Htd)).
  simpl.
  unfold in_datetime_range.
  rewrite (proj2 (Z.leb_le _ _) (proj1 Hr)), (proj2 (Z.leb_le _ _) (proj2 Hr)).
  simpl. unfold jwt_encode. rewrite Hh. simpl.
  rewrite encoded_claims, bool_decide_eq_true_2; [done |].
  repeat (apply map_Forall_insert_2; [done |]).
  apply map_Forall_empty.
Qed.

Lemma create_access_token_raises self now data expires_delta e :
  create_access_token self now data expires_delta = Raise e →
  e = EHTTP could_not_create.
Proof.
  unfold create_access_token. cbv zeta.
  match goal with |- match ?b with _ => _ end = _ → _ => destruct b end;
    congruence.
Qed.

Lemma verify_token_Ok_hmac self now token payload :
  verify_token self now token = Ok payload → is_hmac (algorithm self) = true.
Proof.
  intros (Hd & _)%verify_token_Ok_inv.
  apply jwt_decode_Ok_inv in Hd as [Hv _].
  apply jws_verify_inv in Hv as (a & _ & Ha & Hh).
  apply list_elem_of_singleton in Ha as ->. done.
Qed.

(** C5 (amended): on a token that [verify_token] accepts, [refresh_token]
    is [create_access_token] on the claim set that holds the subject alone,
    and the new token carries exactly the subject, a fresh expiry and a
    fresh issue time; on a token that [verify_token] rejects, for whatever
    reason, it raises the one error [could_not_refresh]. *)
Theorem refresh_token_minimal_trust self now token :
  expiry_representable self now →
  match verify_token self now token with
  | Ok payload =>
      ∃ sub, payload !! "sub" = Some (VStr sub) ∧
        refresh_token self now token =
          create_access_token self now {[ "sub" := VStr sub ]} None ∧
        refresh_token self now token =
          Ok (Signed (algorithm self) (secret_key self)
                {[ "sub" := VStr sub;
                   "exp" := VInt (timegm (now + access_token_expire_minutes self
                                                  * 60000000));
                   "iat" := VInt (timegm now) ]})
  | Raise _ => refresh_token self now token = Raise (EHTTP could_not_refresh)
  end.
Proof.
  intros Hrep. unfold refresh_token.
  destruct (verify_token self now token) as [payload | e] eqn:Hv; [| done].
  pose proof (verify_token_Ok_hmac _ _ _ _ Hv) as Hh.
  apply verify_token_Ok_inv in Hv as (_ & [sub Hsub] & _).
  exists sub. split; [done |]. simpl. unfold dict_get. rewrite Hsub. simpl.
  rewrite (create_access_token_sub _ _ _ Hh Hrep). done.
Qed.

Lemma validate_claims_issued now u E I :
  timegm now <= E →
  validate_claims now {[ "sub" := VStr u; "exp" := VInt E; "iat" := VInt I ]}
  = Ok tt.
Proof.
  intros Hle. apply Z.ltb_ge in Hle.
  unfold validate_claims, validate_iat, validate_nbf, validate_exp, validate_aud,
    validate_str_claim, validate_at_hash, int_claim.
  set (claims := ({[ "sub" := VStr u; "exp" := VInt E; "iat" := VInt I ]} : Dict)).
  assert (claims !! "iat" = Some (VInt I)) as -> by reflexivity.
  assert (claims !! "nbf" = None) as -> by reflexivity.
  assert (claims !! "exp" = Some (VInt E)) as -> by reflexivity.
  assert (claims !! "aud" = None) as -> by reflexivity.
  assert (claims !! "sub" = Some (VStr u)) as -> by reflexivity.
  assert (claims !! "jti" = None) as -> by reflexivity.
  assert (claims !! "at_hash" = None) as -> by reflexivity.
  simpl.
  rewrite Hle. done.
Qed.

Lemma timegm_add_minutes now m :
  timegm (now + m * 60000000) = timegm now + 60 * m.
Proof.
  unfold timegm. replace (m * 60000000) with ((60 * m) * 1000000) by lia.
  by rewrite Z.div_add.
Qed.

Lemma timegm_bounds now :
  timegm now * 1000000 <= now < (timegm now + 1) * 1000000.
Proof.
  unfold timegm. pose proof (Z.div_mod now 1000000).
  pose proof (Z.mod_pos_bound now 1000000). lia.
Qed.

(** X3: where the host's local time is not behind UTC by the token
    lifetime or more, a token verifies at the instant it was issued and
    yields its subject. *)
Lemma issue_then_verify self now u :
  is_hmac (algorithm self) = true →
  expiry_representable self now →
  0 <= access_token_expire_minutes self →
  1 <= 60 * access_token_expire_minutes self + utc_offset →
  in_datetime_range
    ((timegm now + 60 * access_token_expire_minutes self + utc_offset)
     * 1000000) = true →
  ∃ t payload,
    create_access_token self now {[ "sub" := VStr u ]} None = Ok t ∧
    verify_token self now t = Ok payload ∧
    payload !! "sub" = Some (VStr u).
Proof.
  intros Hh Hrep Hm Hoff Hrange.
  set (E := timegm now + 60 * access_token_expire_minutes self).
  set (claims := ({[ "sub" := VStr u; "exp" := VInt E;
                     "iat" := VInt (timegm now) ]} : Dict)).
  exists (Signed (algorithm self) (secret_key self) claims), claims.
  split; [| split; [| reflexivity]].
  { rewrite create_access_token_sub, timegm_add_minutes by done. done. }
  erewrite verify_token_decoded.
  2:{ unfold jwt_decode. rewrite jws_verify_signed by done. simpl.
      unfold claims. rewrite validate_claims_issued by (unfold E; lia). done. }
  change (dict_get _ "sub") with (VStr u).
  change (dict_get _ "exp") with (VInt E).
  rewrite !bool_decide_eq_false_2 by done.
  simpl. fold E in Hrange. rewrite Hrange.
  pose proof (timegm_bounds now).
  destruct (Z.gtb_spec now ((E + utc_offset) * 1000000));
    [unfold E in *; lia | done].
Qed.

(** Where the host's local time is behind UTC by more than the token
    lifetime, a token is rejected as expired at the instant it was issued. *)
Lemma issue_then_verify_behind_utc self now u :
  is_hmac (algorithm self) = true →
  expiry_representable self now →
  0 <= access_token_expire_minutes self →
  60 * access_token_expire_minutes self + utc_offset < 0 →
  in_datetime_range
    ((timegm now + 60 * access_token_expire_minutes self + utc_offset)
     * 1000000) = true →
  ∃ t,
    create_access_token self now {[ "sub" := VStr u ]} None = Ok t ∧
    verify_token self now t = Raise (EHTTP token_expired).
Proof.
  intros Hh Hrep Hm Hoff Hrange.
  set (E := timegm now + 60 * access_token_expire_minutes self).
  set (claims := ({[ "sub" := VStr u; "exp" := VInt E;
                     "iat" := VInt (timegm now) ]} : Dict)).
  exists (Signed (algorithm self) (secret_key self) claims).
  split.
  { rewrite create_access_token_sub, timegm_add_minutes by done. done. }
  erewrite verify_token_decoded.
  2:{ unfold jwt_decode. rewrite jws_verify_signed by done. simpl.
      unfold claims. rewrite validate_claims_issued by (unfold E; lia). done. }
  change (dict_get _ "sub") with (VStr u).
  change (dict_get _ "exp") with (VInt E).
  rewrite !bool_decide_eq_false_2 by done.
  simpl. fold E in Hrange. rewrite Hrange.
  pose proof (timegm_bounds now).
  destruct (Z.gtb_spec now ((E + utc_offset) * 1000000));
    [done | unfold E in *; lia].
Qed.

(** ** The authentication gate *)

(** C3: a request whose path starts with an excluded prefix is handed on
    unchanged whatever the protected prefixes and the headers are, and so is
    a request whose path starts with no protected prefix; no token is
    looked at and nothing is attached to the request. *)
Theorem dispatch_pass_through self jwt_handler now request :
  (∃ excluded, excluded ∈ excluded_paths self ∧
     String.prefix excluded (url_path request) = true) ∨
  (∀ protected, protected ∈ protected_paths self →
     String.prefix protected (url_path request) = false) →
  dispatch self jwt_handler now request = CallNext request.
Proof.
  intros Hpath. unfold dispatch. cbv zeta.
  destruct (existsb _ (excluded_paths self)) eqn:Hex; [done |].
  destruct Hpath as [(excluded & Hin & Hpre) | Hnone].
  - assert (existsb (λ e, String.prefix e (url_path request))
              (excluded_paths self) = true) as Hyes.
    { apply existsb_exists. exists excluded.
      by rewrite <- list_elem_of_In. }
    congruence.
  - destruct (existsb _ (protected_paths self)) eqn:Hpr; [| done].
    apply existsb_exists in Hpr as (protected & Hin & Hpre).
    rewrite <- list_elem_of_In in Hin. rewrite (Hnone _ Hin) in Hpre.
    discriminate.
Qed.

Lemma split_nonempty sep s : split sep s ≠ [].
Proof.
  destruct s as [| c s']; simpl; [done |].
  destruct (Ascii.eqb c sep); [done |]. by destruct (split sep s').
Qed.

Lemma prefix_app p s :
  String.prefix p s = true → ∃ rest, s = (p +:+ rest)%string.
Proof.
  revert s. induction p as [| a p IH]; intros s; [by exists s |].
  destruct s as [| b s]; [discriminate |].
  change (String.prefix (String a p) (String b s))
    with (if ascii_dec a b then String.prefix p s else false).
  destruct (ascii_dec a b) as [-> |]; [| discriminate].
  intros [rest ->]%IH. by exists rest.
Qed.

Lemma split_bearer authorization :
  String.prefix "Bearer " authorization = true →
  ∃ token, split " " authorization !! 1%nat = Some token.
Proof.
  intros [rest ->]%prefix_app.
  change ("Bearer " +:+ rest)%string
    with (String "B" (String "e" (String "a" (String "r" (String "e"
            (String "r" (String " " rest))))))).
  simpl.
  destruct (split " " rest) as [| w ws] eqn:Hs;
    [by apply split_nonempty in Hs | eauto].
Qed.

Lemma verify_token_http self now token e :
  verify_token self now token = Raise (EHTTP e) →
  e = invalid_credentials ∨ e = token_expired.
Proof.
  intros H.
  destruct (jwt_decode now token (secret_key self) [algorithm self])
    as [payload | e'] eqn:Hd.
  - rewrite (verify_token_decoded _ _ _ _ Hd) in H.
    repeat case_match; simplify_eq; auto.
    destruct (dict_get payload "exp"); simpl in *; repeat case_match;
      simplify_eq.
  - rewrite (verify_token_rejected _ _ _ _ Hd) in H.
    destruct (jwt_decode_raises _ _ _ _ _ Hd) as [-> | ->]; simplify_eq; auto.
Qed.

(** X12: the gate raises nothing of its own, the index after [split]
    included: it hands the request on or answers itself, and every response
    it gives itself is a 401. *)
Lemma dispatch_deliberate self jwt_handler now request :
  match dispatch self jwt_handler now request with
  | CallNext _ => True
  | Return response => response_status_code response = 401
  | Propagate _ => False
  end.
Proof.
  unfold dispatch. cbv zeta.
  destruct (existsb _ (excluded_paths self)); [done |].
  destruct (negb _); [done |].
  destruct (header_authorization request) as [authorization |]; [| done].
  destruct (String.eqb authorization EmptyString); simpl; [done |].
  destruct (String.prefix "Bearer " authorization) eqn:Hpre; simpl; [| done].
  destruct (split_bearer _ Hpre) as [token ->].
  destruct (verify_token jwt_handler now (wire token)) as [payload | e] eqn:Hv;
    [done |].
  destruct e; try done.
  by apply verify_token_http in Hv as [-> | ->].
Qed.

(** ** The user directory and the access policy *)

Lemma user_safe_delete (user : Dict) :
  filter (λ kv, kv.1 ≠ "password"%string) user = delete "password" user.
Proof.
  apply map_eq. intros k. rewrite map_lookup_filter.
  destruct (decide (k = "password")) as [-> | Hk].
  - rewrite lookup_delete_eq. by destruct (user !! "password").
  - rewrite lookup_delete_ne by done. destruct (user !! k); [| done].
    simpl. by rewrite option_guard_True.
Qed.

Lemma find_one_field docs field v d :
  find_one docs field v = Some d → d ∈ docs ∧ d !! field = Some v.
Proof.
  intros [Hin Hf]%find_some. rewrite <- list_elem_of_In in Hin.
  by apply bool_decide_eq_true in Hf.
Qed.

Lemma get_user_by_username_record db username record :
  get_user_by_username db username = Ok (Some record) →
  record !! "username" = Some username.
Proof.
  destruct db as [| docs]; simpl; [discriminate |].
  intros [= H]. by apply find_one_field in H as [_ ?].
Qed.

(** What [get_current_user] does on a token that verifies. *)
Lemma get_current_user_verified jwt_handler db now token payload :
  verify_token jwt_handler now token = Ok payload →
  get_current_user jwt_handler db now token =
    match get_user_by_username db (dict_get payload "sub") with
    | Ok (Some record) => Ok (delete "password" record)
    | Ok None | Raise _ => Raise (EHTTP credentials_exception)
    end.
Proof.
  intros Hv. unfold get_current_user. rewrite Hv. simpl.
  apply verify_token_Ok_inv in Hv as (_ & [s Hs] & _).
  assert (dict_get payload "sub" = VStr s) as Hsub
    by (unfold dict_get; by rewrite Hs).
  rewrite bool_decide_eq_false_2 by (by rewrite Hsub).
  destruct db as [| docs]; simpl; [done |].
  destruct (find_one docs "username" (dict_get payload "sub")); simpl;
    [by rewrite user_safe_delete | done].
Qed.

Lemma get_current_user_rejected jwt_handler db now token e :
  verify_token jwt_handler now token = Raise e →
  ∃ e', get_current_user jwt_handler db now token = Raise (EHTTP e').
Proof.
  intros Hv. unfold get_current_user. rewrite Hv. simpl.
  destruct e; eauto.
Qed.

Lemma get_current_user_Ok_inv jwt_handler db now token user_safe :
  get_current_user jwt_handler db now token = Ok user_safe →
  ∃ payload record,
    verify_token jwt_handler now token = Ok payload ∧
    get_user_by_username db (dict_get payload "sub") = Ok (Some record) ∧
    user_safe = delete "password" record.
Proof.
  intros H.
  destruct (verify_token jwt_handler now token) as [payload | e] eqn:Hv.
  - rewrite (get_current_user_verified _ _ _ _ _ Hv) in H.
    destruct (get_user_by_username db (dict_get payload "sub"))
      as [[record |] | e] eqn:Hu; try discriminate.
    injection H as <-. eauto.
  - destruct (get_current_user_rejected _ db _ _ _ Hv) as [e' He'].
    congruence.
Qed.

(** X15: whatever the token and the directory, the extraction fails with a
    401 or not at all. *)
Lemma get_current_user_raises jwt_handler db now token e :
  get_current_user jwt_handler db now token = Raise e →
  ∃ h, e = EHTTP h ∧ status_code h = 401.
Proof.
  intros H.
  destruct (verify_token jwt_handler now token) as [payload | e'] eqn:Hv.
  - rewrite (get_current_user_verified _ _ _ _ _ Hv) in H.
    destruct (get_user_by_username db (dict_get payload "sub"))
      as [[record |] | e'']; simplify_eq; by eexists.
  - unfold get_current_user in H. rewrite Hv in H. simpl in H.
    destruct e'; simplify_eq; try by eexists.
    apply verify_token_http in Hv as [-> | ->]; by eexists.
Qed.

(** C10: a token that verifies but whose subject has no record in the user
    directory does not establish an identity: the extraction fails with the
    401 credentials error. *)
Theorem get_current_user_unknown_subject jwt_handler db now token payload :
  verify_token jwt_handler now token = Ok payload →
  get_user_by_username db (dict_get payload "sub") = Ok None →
  get_current_user jwt_handler db now token =
    Raise (EHTTP credentials_exception) ∧
  status_code credentials_exception = 401.
Proof.
  intros Hv Hu. rewrite (get_current_user_verified _ _ _ _ _ Hv), Hu. done.
Qed.

(** The test [get_current_admin_user] makes on the record it is given. *)
Lemma get_current_admin_user_iff (current_user : Dict) :
  get_current_admin_user current_user = Ok current_user ↔
  dict_get current_user "username" = VStr "admin" ∨
  truthy (dict_get_default current_user "is_admin" (VBool false)) = true.
Proof.
  unfold get_current_admin_user.
  case_bool_decide as Hname; simpl; [by split; [left |] |].
  destruct (truthy _); simpl; [by split; [right |] |].
  split; [discriminate | by intros [? | ?]].
Qed.

(** C6 (amended): for a token that verifies, the admin dependency admits the
    caller exactly when a directory record exists for the subject and the
    subject is the fixed name admin or the record's admin flag is set; with
    no record, or with the directory unreachable, it fails with the 401
    credentials error for every subject, the fixed name included. *)
Theorem admin_dependency_decision jwt_handler db now token payload :
  verify_token jwt_handler now token = Ok payload →
  match get_user_by_username db (dict_get payload "sub") with
  | Ok (Some record) =>
      depends_current_admin_user jwt_handler db now token =
        if bool_decide (dict_get payload "sub" = VStr "admin")
           || truthy (dict_get_default record "is_admin" (VBool false))
        then Ok (delete "password" record)
        else Raise (EHTTP not_enough_permissions)
  | Ok None | Raise _ =>
      depends_current_admin_user jwt_handler db now token =
        Raise (EHTTP credentials_exception)
  end.
Proof.
  intros Hv. unfold depends_current_admin_user.
  rewrite (get_current_user_verified _ _ _ _ _ Hv).
  destruct (get_user_by_username db (dict_get payload "sub"))
    as [[record |] | e] eqn:Hu; [| done | done].
  apply get_user_by_username_record in Hu. simpl.
  unfold get_current_admin_user.
  assert (dict_get (delete "password" record) "username"
          = dict_get payload "sub") as ->.
  { unfold dict_get at 1. rewrite lookup_delete_ne by done. by rewrite Hu. }
  assert (dict_get_default (delete "password" record) "is_admin" (VBool false)
          = dict_get_default record "is_admin" (VBool false)) as ->.
  { unfold dict_get_default. by rewrite lookup_delete_ne. }
  destruct (bool_decide (dict_get payload "sub" = VStr "admin"));
    destruct (truthy (dict_get_default record "is_admin" (VBool false)));
    done.
Qed.

(** ** Credentials *)




(** [verify_password] returns [True] only for a well-formed bcrypt hash
    whose checksum is the one the backend computes for the password. *)
Lemma verify_password_true plain_password hashed :
  verify_password plain_password hashed = Ok true →
  ∃ h self chk,
    hashed = VStr h ∧ bcrypt_from_string h = Ok self ∧
    bcrypt_checksum self = Some chk ∧
    bcrypt_calc_checksum (bcrypt_ident self) (bcrypt_rounds self)
      (bcrypt_salt self) plain_password = Ok chk.
Proof.
  unfold verify_password, pwd_context_verify.
  destruct hashed as [| | | h | |]; try discriminate.
  destruct (bcrypt_identify h); [| discriminate].
  unfold bcrypt_verify.
  destruct (bcrypt_from_string h) as [self |] eqn:Hparse; simpl;
    [| discriminate].
  destruct (bcrypt_checksum self) as [chk |] eqn:Hchk; [| discriminate].
  destruct (bcrypt_calc_checksum _ _ _ _) as [digest |] eqn:Hd; simpl;
    [| discriminate].
  intros [= Heq]. apply String.eqb_eq in Heq as ->. eauto 10.
Qed.

Lemma authenticate_user_unknown db username password :
  get_user_by_username db (VStr username) = Ok None →
  authenticate_user db username password = None.
Proof. intros Hu. unfold authenticate_user. by rewrite Hu. Qed.

Lemma authenticate_user_wrong_password db username password record :
  get_user_by_username db (VStr username) = Ok (Some record) →
  (hashed ← dict_index record "password"; verify_password password hashed)
    ≠ Ok true →
  authenticate_user db username password = None.
Proof.
  intros Hu Hwrong. unfold authenticate_user. rewrite Hu. simpl.
  case_bool_decide; [done |].
  destruct (dict_index record "password") as [hashed |]; simpl in *; [| done].
  destruct (verify_password password hashed) as [[] |]; simpl; done.
Qed.

(** A failed login with a name that is in the directory and a password
    that does not verify, and a failed login with a name that is not in the
    directory, raise the same 401 error with the same generic detail. *)
Theorem login_failure_uniform jwt_handler db now u1 p1 u2 p2 record :
  get_user_by_username db (VStr u1) = Ok (Some record) →
  (hashed ← dict_index record "password"; verify_password p1 hashed)
    ≠ Ok true →
  get_user_by_username db (VStr u2) = Ok None →
  login jwt_handler db now u1 p1 =
    Raise (EHTTP (mkHTTPException 401 "Incorrect username or password"
                    www_authenticate)) ∧
  login jwt_handler db now u2 p2 = login jwt_handler db now u1 p1.
Proof.
  intros Hu1 Hwrong Hu2. unfold login.
  rewrite (authenticate_user_wrong_password _ _ _ _ Hu1 Hwrong).
  rewrite (authenticate_user_unknown _ _ _ Hu2). done.
Qed.

(** The instrumented [authenticate_user] returns what [authenticate_user]
    returns. *)
Lemma authenticate_user_timed_result db username password :
  (authenticate_user_timed db username password).1
    = authenticate_user db username password.
Proof.
  unfold authenticate_user_timed, authenticate_user.
  destruct (get_user_by_username db (VStr username)) as [[user |] |]; simpl;
    try done.
  case_bool_decide; [done |].
  destruct (dict_index user "password") as [hashed |]; simpl; [| done].
  by destruct (verify_password password hashed) as [[] |].
Qed.

(** The two failed logins are answered with the same response below the
    logging layer, and leave it with different [X-Process-Time] as soon as
    verifying the password takes any time: the one for the unknown name
    tells the time of the lookup alone. *)
Lemma login_requests_told_apart jwt_handler db now u1 p1 u2 p2 record hashed
    start_time :
  get_user_by_username db (VStr u1) = Ok (Some record) →
  record !! "password" = Some hashed →
  verify_password p1 hashed ≠ Ok true →
  get_user_by_username db (VStr u2) = Ok None →
  0 < pwd_context_verify_time p1 hashed →
  ∃ r1 r2,
    login_request jwt_handler db now u1 p1 start_time = Ok r1 ∧
    login_request jwt_handler db now u2 p2 start_time = Ok r2 ∧
    logged r1 = logged r2 ∧
    x_process_time r1 = find_one_time + pwd_context_verify_time p1 hashed ∧
    x_process_time r2 = find_one_time ∧
    x_process_time r1 ≠ x_process_time r2.
Proof.
  intros Hu1 Hp Hwrong Hu2 Htime.
  assert (Hwrong' : (hashed' ← dict_index record "password";
                     verify_password p1 hashed') ≠ Ok true).
  { unfold dict_index. by rewrite Hp. }
  destruct (login_failure_uniform jwt_handler db now u1 p1 u2 p2 record
              Hu1 Hwrong' Hu2) as [H1 H2].
  unfold login_request. rewrite H2, H1. simpl.
  assert ((authenticate_user_timed db u1 p1).2
          = find_one_time + pwd_context_verify_time p1 hashed) as ->.
  { unfold authenticate_user_timed, dict_index. rewrite Hu1.
    rewrite bool_decide_eq_false_2.
    2:{ intros ->. by rewrite lookup_empty in Hp. }
    rewrite Hp. by destruct (verify_password p1 hashed) as [[] |]. }
  assert ((authenticate_user_timed db u2 p2).2 = find_one_time) as ->.
  { unfold authenticate_user_timed. by rewrite Hu2. }
  eexists _, _. repeat split; simpl; lia.
Qed.

(** ** Records handed to callers *)

Lemma get_all_users_no_password db users user :
  get_all_users db = Ok users → user ∈ users → user !! "password" = None.
Proof.
  destruct db as [| docs]; simpl; [discriminate |].
  intros [= <-] (d & -> & _)%list_elem_of_fmap. apply lookup_delete_eq.
Qed.

Lemma get_user_by_username_endpoint_Ok_inv jwt_handler db now token username
    user_safe :
  get_user_by_username_endpoint jwt_handler db now token username
    = Ok user_safe →
  ∃ record,
    get_user_by_username db (VStr username) = Ok (Some record) ∧
    user_safe = delete "password" record.
Proof.
  unfold get_user_by_username_endpoint.
  intros (admin & _ & H)%bind_Ok_inv.
  destruct (get_user_by_username db (VStr username))
    as [[record |] | e] eqn:Hu; simpl in H.
  - case_bool_decide; [discriminate |].
    destruct (response_model_accepts _); [| discriminate].
    injection H as <-. rewrite user_safe_delete. eauto.
  - discriminate.
  - by destruct e.
Qed.

Lemma py_slice_sublist {A} (l : list A) start stop :
  sublist (py_slice l start stop) l.
Proof.
  unfold py_slice. cbv zeta.
  etrans; [apply sublist_take | apply sublist_drop].
Qed.

(** C8 (amended): the records that reach a client have no [password]
    field: the record of the per-request identity extraction and of the
    admin dependency built on it, the record of the admin lookup of a user
    by name, every record of the listing of all users and every record of
    a page of the listing route. *)
Theorem returned_records_without_password jwt_handler db now token username
    skip limit :
  (∀ user, get_current_user jwt_handler db now token = Ok user →
     user !! "password" = None) ∧
  (∀ user, depends_current_admin_user jwt_handler db now token = Ok user →
     user !! "password" = None) ∧
  (∀ user,
     get_user_by_username_endpoint jwt_handler db now token username = Ok user →
     user !! "password" = None) ∧
  (∀ users, get_all_users db = Ok users →
     ∀ user, user ∈ users → user !! "password" = None) ∧
  (∀ result, get_users_list db skip limit = Ok result →
     ∀ user, user ∈ users result → user !! "password" = None).
Proof.
  assert (Hcur : ∀ user, get_current_user jwt_handler db now token = Ok user →
                         user !! "password" = None).
  { intros user (payload & record & _ & _ & ->)%get_current_user_Ok_inv.
    apply lookup_delete_eq. }
  split; [exact Hcur |]. split; [| split; [| split]].
  - intros user. unfold depends_current_admin_user.
    destruct (get_current_user jwt_handler db now token) as [current |] eqn:Hc;
      simpl; [| discriminate].
    unfold get_current_admin_user. case_match; [discriminate |].
    intros [= <-]. by apply Hcur.
  - intros user (record & _ & ->)%get_user_by_username_endpoint_Ok_inv.
    apply lookup_delete_eq.
  - intros users Hall user Hin. by eapply get_all_users_no_password.
  - intros result. unfold get_users_list.
    destruct (get_all_users db) as [all_users |] eqn:Hall; simpl;
      [| discriminate].
    destruct (forallb _ _); simpl; [| discriminate].
    intros [= <-] user Hin. simpl in Hin.
    eapply get_all_users_no_password; [exact Hall |].
    eapply elem_of_sublist; [exact Hin | apply py_slice_sublist].
Qed.

(** * Further properties of the service *)

(** ** The token service *)

(** X1: [verify_token] returns a claim set only for a token signed with the
    configured secret and algorithm; what it returns is that token's claim
    set, which has a string subject and an expiry that, read as local time,
    has not passed. *)
Theorem verify_token_sound self now token payload :
  verify_token self now token = Ok payload →
  token = Signed (algorithm self) (secret_key self) payload ∧
  (∃ s, payload !! "sub" = Some (VStr s)) ∧
  ∃ exp limit,
    payload !! "exp" = Some exp ∧ fromtimestamp exp = Ok limit ∧ now <= limit.
Proof.
  intros (Hd & Hsub & limit & Hf & Hle)%verify_token_Ok_inv.
  apply jwt_decode_Ok_inv in Hd as [Hv _].
  apply jws_verify_inv in Hv as (a & -> & Ha & _).
  apply list_elem_of_singleton in Ha as ->.
  split; [done |]. split; [done |].
  unfold dict_get in Hf.
  destruct (payload !! "exp") as [exp |]; [| discriminate]. eauto.
Qed.

Lemma convert_time_claim_lookup k (claims : Dict) j :
  convert_time_claim k claims !! j =
    if decide (j = k)
    then match claims !! k with
         | Some (VDatetime us) => Some (VInt (timegm us))
         | o => o
         end
    else claims !! j.
Proof.
  unfold convert_time_claim.
  destruct (claims !! k) as [[] |] eqn:Hk; case_decide; subst;
    rewrite ?lookup_insert_eq, ?lookup_insert_ne by done; done.
Qed.

(** X2: whatever claims the caller passes, the token [create_access_token]
    returns is signed with the configured key and algorithm, its expiry and
    issue time are the ones computed from the clock, and every other claim
    but [nbf] is the caller's. *)
Theorem create_access_token_claims self now data expires_delta token :
  create_access_token self now data expires_delta = Ok token →
  ∃ claims,
    token = Signed (algorithm self) (secret_key self) claims ∧
    claims !! "exp" =
      Some (VInt (timegm (now + lifetime self expires_delta))) ∧
    claims !! "iat" = Some (VInt (timegm now)) ∧
    ∀ k, k ≠ "exp"%string → k ≠ "iat"%string → k ≠ "nbf"%string →
         claims !! k = data !! k.
Proof.
  unfold create_access_token. cbv zeta.
  set (expire := match expires_delta with
                 | Some d =>
                     if negb (d =? 0) then datetime_add now d
                     else
                       timedelta_minutes (access_token_expire_minutes self)
                       ≫= λ td, datetime_add now td
                 | None =>
                     timedelta_minutes (access_token_expire_minutes self)
                     ≫= λ td, datetime_add now td
                 end).
  assert (Hexp : ∀ x, expire = Ok x → x = now + lifetime self expires_delta).
  { intros x. unfold expire, lifetime, timedelta_minutes, datetime_add.
    destruct expires_delta as [d |]; [destruct (d =? 0); simpl |];
      repeat case_match; simpl; repeat case_match; congruence. }
  destruct expire as [x |]; simpl; [| discriminate].
  rewrite (Hexp x eq_refl). clear Hexp.
  unfold jwt_encode. destruct (is_hmac (algorithm self)); simpl; [| discriminate].
  case_bool_decide; [| discriminate].
  intros [= <-]. eexists. split; [done |].
  rewrite !convert_time_claim_lookup. simpl.
  rewrite lookup_insert_ne by done. rewrite !lookup_insert_eq.
  split; [done |]. split; [done |].
  intros k Hk1 Hk2 Hk3.
  rewrite !convert_time_claim_lookup. rewrite !decide_False by done.
  by rewrite !lookup_insert_ne.
Qed.

(** A token with the three claims of a fresh one verifies while its expiry,
    read as local time, has not passed. *)
Lemma verify_token_issued self now u E I :
  is_hmac (algorithm self) = true →
  timegm now <= E →
  in_datetime_range ((E + utc_offset) * 1000000) = true →
  now <= (E + utc_offset) * 1000000 →
  verify_token self now
    (Signed (algorithm self) (secret_key self)
       {[ "sub" := VStr u; "exp" := VInt E; "iat" := VInt I ]})
  = Ok {[ "sub" := VStr u; "exp" := VInt E; "iat" := VInt I ]}.
Proof.
  intros Hh HE Hrange Hle.
  set (claims := ({[ "sub" := VStr u; "exp" := VInt E; "iat" := VInt I ]}
                  : Dict)).
  erewrite verify_token_decoded.
  2:{ unfold jwt_decode. rewrite jws_verify_signed by done. simpl.
      unfold claims. rewrite validate_claims_issued by done. done. }
  change (dict_get _ "sub") with (VStr u).
  change (dict_get _ "exp") with (VInt E).
  rewrite !bool_decide_eq_false_2 by done.
  simpl. rewrite Hrange.
  destruct (Z.gtb_spec now ((E + utc_offset) * 1000000)); [lia | done].
Qed.

Lemma create_access_token_Ok_representable self now data token :
  create_access_token self now data None = Ok token →
  is_hmac (algorithm self) = true ∧ expiry_representable self now.
Proof.
  unfold create_access_token, timedelta_minutes, datetime_add, jwt_encode,
    expiry_representable, in_datetime_range.
  cbv zeta.
  destruct (timedelta_min <=? _) eqn:H1; simpl; [| discriminate].
  destruct (_ <=? timedelta_max) eqn:H2; simpl; [| discriminate].
  destruct (datetime_min <=? _) eqn:H3; simpl; [| discriminate].
  destruct (_ <=? datetime_max) eqn:H4; simpl; [| discriminate].
  destruct (is_hmac (algorithm self)); simpl; [| discriminate].
  intros _. apply Z.leb_le in H1, H2, H3, H4. done.
Qed.

Lemma refresh_token_Ok_inv self now token refreshed :
  refresh_token self now token = Ok refreshed →
  ∃ payload sub,
    verify_token self now token = Ok payload ∧
    payload !! "sub" = Some (VStr sub) ∧
    create_access_token self now {[ "sub" := VStr sub ]} None = Ok refreshed.
Proof.
  unfold refresh_token.
  destruct (verify_token self now token) as [payload |] eqn:Hv; simpl;
    [| discriminate].
  apply verify_token_Ok_inv in Hv as (_ & [sub Hsub] & _).
  unfold dict_get. rewrite Hsub. simpl.
  destruct (create_access_token _ _ _ _) as [t |] eqn:Hc; [| discriminate].
  intros [= <-]. eauto.
Qed.

(** X4: where the host's local time is not behind UTC by the token lifetime
    or more, the token [refresh_token] returns verifies at once and carries
    the subject of the token it was made from. *)
Theorem refresh_then_verify self now token refreshed :
  refresh_token self now token = Ok refreshed →
  0 <= access_token_expire_minutes self →
  1 <= 60 * access_token_expire_minutes self + utc_offset →
  in_datetime_range
    ((timegm now + 60 * access_token_expire_minutes self + utc_offset)
     * 1000000) = true →
  ∃ payload payload',
    verify_token self now token = Ok payload ∧
    verify_token self now refreshed = Ok payload' ∧
    payload' !! "sub" = payload !! "sub".
Proof.
  intros (payload & sub & Hv & Hsub & Hc)%refresh_token_Ok_inv Hm Hoff Hrange.
  destruct (create_access_token_Ok_representable _ _ _ _ Hc) as [Hh Hrep].
  rewrite (create_access_token_sub _ _ _ Hh Hrep) in Hc.
  injection Hc as <-. rewrite timegm_add_minutes.
  eexists payload, _. split; [done |].
  pose proof (timegm_bounds now).
  split; [apply verify_token_issued; try done; lia |].
  by rewrite Hsub.
Qed.

(** X5: the refresh route never answers with its own 500: it returns a
    bearer response with a token made from one that verifies, announcing
    the configured lifetime in seconds, or it fails with the 401 whose
    detail says the token could not be refreshed. *)
Theorem refresh_token_endpoint_outcomes jwt_handler now current_token :
  match refresh_token_endpoint jwt_handler now current_token with
  | Ok response =>
      (∃ payload, verify_token jwt_handler now current_token = Ok payload) ∧
      refresh_token jwt_handler now current_token
        = Ok (access_token response) ∧
      token_type response = "bearer"%string ∧
      expires_in response = access_token_expire_minutes jwt_handler * 60
  | Raise e => e = EHTTP (mkHTTPException 401 "Could not refresh token" None)
  end.
Proof.
  unfold refresh_token_endpoint.
  destruct (refresh_token jwt_handler now current_token) as [t | e] eqn:Hr;
    simpl.
  - apply refresh_token_Ok_inv in Hr as (payload & _ & Hv & _). eauto.
  - unfold refresh_token in Hr. repeat case_match; by simplify_eq.
Qed.

(** ** Login *)

(** X6: [authenticate_user] returns a record only if it is the directory's
    record for that name and the password verifies against the hash stored
    in it. *)
Theorem authenticate_user_sound db username password user :
  authenticate_user db username password = Some user →
  get_user_by_username db (VStr username) = Ok (Some user) ∧
  ∃ hashed, user !! "password" = Some hashed ∧
            verify_password password hashed = Ok true.
Proof.
  unfold authenticate_user.
  destruct (get_user_by_username db (VStr username)) as [[record |] |];
    simpl; try discriminate.
  case_bool_decide; [discriminate |].
  unfold dict_index.
  destruct (record !! "password") as [hashed |] eqn:Hh; simpl;
    [| discriminate].
  destruct (verify_password password hashed) as [[] |] eqn:Hp; simpl;
    try discriminate.
  intros [= <-]. eauto.
Qed.

Lemma authenticate_user_complete db username password record hashed :
  get_user_by_username db (VStr username) = Ok (Some record) →
  record !! "password" = Some hashed →
  verify_password password hashed = Ok true →
  authenticate_user db username password = Some record.
Proof.
  intros Hu Hp Hv. unfold authenticate_user. rewrite Hu. simpl.
  rewrite bool_decide_eq_false_2.
  2:{ intros ->. by rewrite lookup_empty in Hp. }
  unfold dict_index. rewrite Hp. simpl. by rewrite Hv.
Qed.

Lemma create_access_token_default_delta self now data :
  expiry_representable self now →
  create_access_token self now data
    (Some (access_token_expire_minutes self * 60000000))
  = create_access_token self now data None.
Proof.
  intros [Htd _]. unfold create_access_token, timedelta_minutes. cbv zeta.
  rewrite (proj2 (Z.leb_le _ _) (proj1 Htd)), (proj2 (Z.leb_le _ _) (proj2 Htd)).
  simpl. by destruct (_ =? 0).
Qed.

Lemma login_returns jwt_handler db now username password record hashed :
  get_user_by_username db (VStr username) = Ok (Some record) →
  record !! "password" = Some hashed →
  verify_password password hashed = Ok true →
  is_hmac (algorithm jwt_handler) = true →
  expiry_representable jwt_handler now →
  login jwt_handler db now username password =
    Ok (mkTokenResponse
          (Signed (algorithm jwt_handler) (secret_key jwt_handler)
             {[ "sub" := VStr username;
                "exp" := VInt (timegm (now + access_token_expire_minutes
                                               jwt_handler * 60000000));
                "iat" := VInt (timegm now) ]})
          "bearer" (access_token_expire_minutes jwt_handler * 60)).
Proof.
  intros Hu Hp Hv Hh Hrep. unfold login.
  rewrite (authenticate_user_complete _ _ _ _ _ Hu Hp Hv).
  pose proof Hrep as [Htd _].
  unfold timedelta_minutes at 1. cbv zeta.
  rewrite (proj2 (Z.leb_le _ _) (proj1 Htd)), (proj2 (Z.leb_le _ _) (proj2 Htd)).
  simpl. unfold dict_index.
  rewrite (get_user_by_username_record _ _ _ Hu). simpl.
  rewrite create_access_token_default_delta by done.
  rewrite create_access_token_sub by done. done.
Qed.

(** X7: with the name of a stored record and a password that verifies
    against its hash, [login] returns a bearer token for that name that
    carries the subject, the expiry and the issue time and nothing else,
    and announces the configured lifetime in seconds. *)
Theorem login_success jwt_handler db now username password record hashed :
  get_user_by_username db (VStr username) = Ok (Some record) →
  record !! "password" = Some hashed →
  verify_password password hashed = Ok true →
  is_hmac (algorithm jwt_handler) = true →
  expiry_representable jwt_handler now →
  login jwt_handler db now username password =
    Ok (mkTokenResponse
          (Signed (algorithm jwt_handler) (secret_key jwt_handler)
             {[ "sub" := VStr username;
                "exp" := VInt (timegm (now + access_token_expire_minutes
                                               jwt_handler * 60000000));
                "iat" := VInt (timegm now) ]})
          "bearer" (access_token_expire_minutes jwt_handler * 60)).
Proof. apply login_returns. Qed.

(** X8: when the directory cannot be reached, [login] answers like it does
    for wrong credentials, with the 401 and its generic detail, and not
    with a 500. *)
Theorem login_directory_unreachable jwt_handler now username password :
  login jwt_handler Unreachable now username password =
    Raise (EHTTP incorrect_username_or_password).
Proof. reflexivity. Qed.


(** ** The gate on guarded paths *)

Lemma guarded_existsb self request :
  guarded self request →
  existsb (fun excluded => String.prefix excluded (url_path request))
    (excluded_paths self) = false ∧
  existsb (fun protected => String.prefix protected (url_path request))
    (protected_paths self) = true.
Proof.
  intros [Hex (protected & Hin & Hpre)]. split.
  - destruct (existsb _ (excluded_paths self)) eqn:He; [| done].
    apply existsb_exists in He as (e & Hin' & He).
    rewrite <- list_elem_of_In in Hin'. by rewrite (Hex _ Hin') in He.
  - apply existsb_exists. exists protected. by rewrite <- list_elem_of_In.
Qed.

(** X10: on a guarded path, a request without an [Authorization] header, or
    with one that does not start with the scheme [Bearer] and a space, is
    answered by the gate itself with the 401 that carries the challenge
    header; the handler is not called. *)
Theorem dispatch_missing_header self jwt_handler now request :
  guarded self request →
  (header_authorization request = None ∨
   ∃ authorization,
     header_authorization request = Some authorization ∧
     String.prefix "Bearer " authorization = false) →
  dispatch self jwt_handler now request = Return missing_header_response.
Proof.
  intros [Hex Hpr]%guarded_existsb Hheader. unfold dispatch. cbv zeta.
  rewrite Hex, Hpr. simpl.
  destruct Hheader as [-> | (authorization & -> & ->)]; [done |].
  by rewrite orb_true_r.
Qed.

Lemma prefix_append p s : String.prefix p (p +:+ s) = true.
Proof.
  induction p as [| c p IH]; [by destruct s |].
  change (String.prefix (String c p) (String c p +:+ s))
    with (if ascii_dec c c then String.prefix p (p +:+ s) else false).
  by destruct (ascii_dec c c).
Qed.

Lemma split_no_sep sep s :
  has_char sep s = false → split sep s = [s].
Proof.
  induction s as [| c s IH]; simpl; [done |].
  intros [Hc Hs]%orb_false_elim. rewrite Hc, (IH Hs). done.
Qed.

Lemma split_first sep word rest :
  has_char sep word = false →
  split sep (word +:+ String sep rest) = word :: split sep rest.
Proof.
  induction word as [| c word IH]; intros Hw.
  - change (EmptyString +:+ String sep rest)%string with (String sep rest).
    simpl. by rewrite Ascii.eqb_refl.
  - simpl in Hw. apply orb_false_elim in Hw as [Hc Hw].
    change (String c word +:+ String sep rest)%string
      with (String c (word +:+ String sep rest)).
    simpl. rewrite Hc, (IH Hw). done.
Qed.

Lemma split_bearer_token token rest :
  has_char " " token = false →
  rest = EmptyString ∨ (∃ junk, rest = String " " junk) →
  split " " ("Bearer " +:+ token +:+ rest) !! 1%nat = Some token.
Proof.
  intros Htok Hrest.
  change ("Bearer " +:+ token +:+ rest)%string
    with ("Bearer" +:+ String " " (token +:+ rest))%string.
  rewrite split_first by done. simpl.
  destruct Hrest as [-> | [junk ->]].
  - assert (token +:+ EmptyString = token)%string as ->.
    { clear Htok. induction token as [| c t IH]; [done |].
      change (String c t +:+ EmptyString)%string
        with (String c (t +:+ EmptyString)).
      by rewrite IH. }
    by rewrite split_no_sep.
  - by rewrite split_first.
Qed.

(** X11: on a guarded path, a header made of [Bearer], a space and a token
    without spaces, with nothing or with a space and any text after it, is
    judged by that token alone; if the token verifies, the request goes on
    with the subject attached as user and the claim set as token payload,
    its path and headers unchanged. *)
Theorem dispatch_bearer_token self jwt_handler now request token rest payload :
  guarded self request →
  header_authorization request = Some ("Bearer " +:+ token +:+ rest)%string →
  has_char " " token = false →
  rest = EmptyString ∨ (∃ junk, rest = String " " junk) →
  verify_token jwt_handler now (wire token) = Ok payload →
  dispatch self jwt_handler now request =
    CallNext
      (mkRequest (url_path request) (header_authorization request)
         (Some {[ "username" := dict_get payload "sub" ]}) (Some payload)).
Proof.
  intros [Hex Hpr]%guarded_existsb Hheader Htok Hrest Hv.
  assert (String.eqb ("Bearer " +:+ token +:+ rest) EmptyString = false)
    as Hne by reflexivity.
  assert (String.prefix "Bearer " ("Bearer " +:+ token +:+ rest) = true)
    as Hpre by apply prefix_append.
  unfold dispatch. cbv zeta.
  rewrite Hex, Hpr, Hheader, Hne, Hpre.
  rewrite (split_bearer_token _ _ Htok Hrest), Hv. done.
Qed.

(** X13: the gate [app/main.py] installs protects [/users], [/admin] and
    [/protected] only: every request whose path starts with [/chat] is
    handed on unchanged, whatever its headers. *)
Theorem app_gate_chat_unguarded jwt_handler now request :
  String.prefix "/chat" (url_path request) = true →
  dispatch app_middleware jwt_handler now request = CallNext request.
Proof.
  intros [rest Hpath]%prefix_app. unfold dispatch. cbv zeta.
  destruct (existsb _ (excluded_paths app_middleware)); [done |].
  rewrite Hpath. done.
Qed.

(** ** Identity *)

(** X14: the record [get_current_user] returns is the directory's record
    for the subject of the verified token: its [username] is that subject
    and every field but [password] is as stored. *)
Theorem get_current_user_identity jwt_handler db now token user :
  get_current_user jwt_handler db now token = Ok user →
  ∃ payload sub record,
    verify_token jwt_handler now token = Ok payload ∧
    payload !! "sub" = Some (VStr sub) ∧
    get_user_by_username db (VStr sub) = Ok (Some record) ∧
    user !! "username" = Some (VStr sub) ∧
    ∀ k, k ≠ "password"%string → user !! k = record !! k.
Proof.
  intros (payload & record & Hv & Hu & ->)%get_current_user_Ok_inv.
  pose proof Hv as (_ & [sub Hsub] & _)%verify_token_Ok_inv.
  assert (dict_get payload "sub" = VStr sub) as Hget
    by (unfold dict_get; by rewrite Hsub).
  rewrite Hget in Hu.
  exists payload, sub, record. repeat split; try done.
  - rewrite lookup_delete_ne by done.
    by apply get_user_by_username_record in Hu.
  - intros k Hk. by rewrite lookup_delete_ne.
Qed.

(** ** Writes to the user collection *)

Lemma find_one_None docs field v :
  find_one docs field v = None ↔ ∀ d, d ∈ docs → d !! field ≠ Some v.
Proof.
  unfold find_one. induction docs as [| d docs IH]; simpl.
  - split; [| done]. intros _ d Hin. by apply elem_of_nil in Hin.
  - case_bool_decide as Hd.
    + split; [done |]. intros H. exfalso. apply (H d); [left | done].
    + rewrite IH. split.
      * intros H d' [-> | Hin]%elem_of_cons; auto.
      * intros H d' Hin. apply H. by right.
Qed.

Lemma find_one_app docs doc field v :
  find_one (docs ++ [doc]) field v =
    match find_one docs field v with
    | Some d => Some d
    | None => if bool_decide (doc !! field = Some v) then Some doc else None
    end.
Proof.
  unfold find_one. induction docs as [| d docs IH]; simpl.
  - by destruct (bool_decide (doc !! field = Some v)).
  - by destruct (bool_decide (d !! field = Some v)).
Qed.

Lemma index_conflict_false field doc docs :
  index_conflict field doc docs = false ↔
  ∀ d, d ∈ docs → dict_get d field ≠ dict_get doc field.
Proof.
  unfold index_conflict. induction docs as [| d docs IH]; simpl.
  - split; [| done]. intros _ d Hin. by apply elem_of_nil in Hin.
  - rewrite orb_false_iff, IH, bool_decide_eq_false. split.
    + intros [Hd H] d' [-> | Hin]%elem_of_cons; auto.
    + intros H. split; [apply H; left | intros d' Hin; apply H; by right].
Qed.

Lemma dict_get_Some_ne_None (d : Dict) field v :
  v ≠ VNone → dict_get d field = v ↔ d !! field = Some v.
Proof.
  intros Hv. unfold dict_get.
  destruct (d !! field); simpl; split; congruence.
Qed.

Lemma bson_document_lookup (doc : Dict) k :
  bson_document doc !! k = bson_value <$> doc !! k.
Proof. apply lookup_fmap. Qed.

Lemma bson_encodable_insert_id (doc : Dict) id :
  bson_encodable doc = true →
  bson_encodable (<["_id" := VObjectId id]> doc) = true.
Proof.
  unfold bson_encodable. intros H%bool_decide_eq_true.
  apply bool_decide_eq_true. by apply map_Forall_insert_2.
Qed.

(** What [create_user] does with a new name. *)
Lemma create_user_inserts docs user_data username :
  user_data !! "_id" = None →
  user_data !! "username" = Some (VStr username) →
  bson_encodable user_data = true →
  find_one docs "username" (VStr username) = None →
  (∀ d, d ∈ docs → dict_get d "_id" ≠ VObjectId (new_object_id docs)) →
  create_user (Collection docs) user_data =
    (Ok (VObjectId (new_object_id docs)),
     Collection
       (docs ++ [<["_id" := VObjectId (new_object_id docs)]>
                   (bson_document user_data)])).
Proof.
  intros Hid Hname Henc Hfree Hfresh. unfold create_user, insert_one.
  rewrite Hid. cbv zeta.
  rewrite (bson_encodable_insert_id _ _ Henc). simpl negb. cbv iota.
  assert (bson_document (<["_id" := VObjectId (new_object_id docs)]> user_data)
          = <["_id" := VObjectId (new_object_id docs)]>
              (bson_document user_data)) as ->
    by (unfold bson_document; by rewrite fmap_insert).
  set (doc := <["_id" := VObjectId (new_object_id docs)]>
                (bson_document user_data)).
  assert (dict_get doc "_id" = VObjectId (new_object_id docs)) as Hdid.
  { unfold dict_get, doc. by rewrite lookup_insert_eq. }
  assert (dict_get doc "username" = VStr username) as Hdname.
  { unfold dict_get, doc. rewrite lookup_insert_ne by done.
    by rewrite bson_document_lookup, Hname. }
  rewrite (proj2 (index_conflict_false "_id" doc docs)).
  2:{ intros d Hin. rewrite Hdid. by apply Hfresh. }
  rewrite (proj2 (index_conflict_false "username" doc docs)).
  2:{ intros d Hin. rewrite Hdname. rewrite dict_get_Some_ne_None by done.
      by apply (proj1 (find_one_None _ _ _) Hfree). }
  simpl. by rewrite Hdid.
Qed.

(** What it does with a name that is taken. *)
Lemma create_user_taken docs user_data username record :
  user_data !! "username" = Some (VStr username) →
  bson_encodable user_data = true →
  find_one docs "username" (VStr username) = Some record →
  create_user (Collection docs) user_data
    = (Raise EValueError, Collection docs).
Proof.
  intros Hname Henc Hfound. unfold create_user, insert_one. cbv zeta.
  set (doc := match user_data !! "_id" with
              | Some _ => user_data
              | None => <["_id" := VObjectId (new_object_id docs)]> user_data
              end).
  assert (bson_encodable doc = true) as ->.
  { unfold doc. destruct (user_data !! "_id"); [done |].
    by apply bson_encodable_insert_id. }
  simpl negb. cbv iota.
  assert (dict_get (bson_document doc) "username" = VStr username) as Hdname.
  { unfold dict_get. rewrite bson_document_lookup. unfold doc.
    destruct (user_data !! "_id");
      rewrite ?lookup_insert_ne by done; by rewrite Hname. }
  assert (index_conflict "username" (bson_document doc) docs = true) as ->.
  { apply not_false_iff_true. rewrite index_conflict_false. intros H.
    apply find_one_field in Hfound as [Hin Hrec].
    apply (H _ Hin). rewrite Hdname. by apply dict_get_Some_ne_None. }
  by rewrite orb_true_r.
Qed.

(** X16: storing a record under a name no stored record has makes
    [get_user_by_username] return it for that name as the store keeps it,
    every [datetime] cut to the millisecond, with the generated [_id]
    added, and changes the answer for no other name. *)
Theorem create_user_then_lookup docs user_data username :
  user_data !! "_id" = None →
  user_data !! "username" = Some (VStr username) →
  bson_encodable user_data = true →
  get_user_by_username (Collection docs) (VStr username) = Ok None →
  (∀ d, d ∈ docs → dict_get d "_id" ≠ VObjectId (new_object_id docs)) →
  ∃ db',
    create_user (Collection docs) user_data
      = (Ok (VObjectId (new_object_id docs)), db') ∧
    get_user_by_username db' (VStr username)
      = Ok (Some (<["_id" := VObjectId (new_object_id docs)]>
                    (bson_document user_data))) ∧
    ∀ other, other ≠ username →
      get_user_by_username db' (VStr other)
        = get_user_by_username (Collection docs) (VStr other).
Proof.
  intros Hid Hname Henc [= Hfree] Hfresh.
  eexists. split; [by apply (create_user_inserts _ _ username) |]. simpl.
  split.
  - rewrite find_one_app, Hfree.
    rewrite bool_decide_eq_true_2; [done |].
    rewrite lookup_insert_ne by done.
    by rewrite bson_document_lookup, Hname.
  - intros other Hother. rewrite find_one_app.
    destruct (find_one docs "username" (VStr other)); [done |].
    rewrite bool_decide_eq_false_2; [done |].
    rewrite lookup_insert_ne by done.
    rewrite bson_document_lookup, Hname. simpl. congruence.
Qed.

(** ** Registration *)

Lemma register_user_hashed salt db now username password is_admin hashed :
  (8 <= len password)%nat →
  get_password_hash salt password = Ok hashed →
  register_user salt db now username password is_admin =
    match create_user db (new_user_data username hashed is_admin now) with
    | (Ok user_id, db') =>
        (Ok (mkAPIResponse "User registered successfully" true
               (Some {[ "user_id" := VStr (py_str user_id);
                        "username" := VStr username ]})),
         db')
    | (Raise EValueError, db') =>
        (Raise (EHTTP (bad_request "Username already exists")), db')
    | (Raise _, db') => (Raise (EHTTP registration_failed), db')
    end.
Proof.
  intros Hlen Hhash. unfold register_user, validate_password_strength.
  rewrite (proj2 (Nat.ltb_ge _ _) Hlen), Hhash. done.
Qed.

Lemma new_user_data_encodable username hashed is_admin now :
  bson_encodable (new_user_data username hashed is_admin now) = true.
Proof.
  apply bool_decide_eq_true. unfold new_user_data.
  repeat (apply map_Forall_insert_2; [done |]).
  apply map_Forall_empty.
Qed.

Lemma new_user_data_stored username hashed is_admin now :
  bson_document (new_user_data username hashed is_admin now)
    = new_user_data username hashed is_admin (now / 1000 * 1000).
Proof.
  unfold bson_document, new_user_data.
  unfold bson_document, new_user_data.
  by rewrite !fmap_insert, map_fmap_singleton.
Qed.

Lemma register_user_inserts salt docs now username password is_admin hashed :
  (8 <= len password)%nat →
  get_password_hash salt password = Ok hashed →
  get_user_by_username (Collection docs) (VStr username) = Ok None →
  (∀ d, d ∈ docs → dict_get d "_id" ≠ VObjectId (new_object_id docs)) →
  register_user salt (Collection docs) now username password is_admin =
    (Ok (mkAPIResponse "User registered successfully" true
           (Some {[ "user_id" := VStr (new_object_id docs);
                    "username" := VStr username ]})),
     Collection
       (docs ++ [<["_id" := VObjectId (new_object_id docs)]>
                   (new_user_data username hashed is_admin
                      (now / 1000 * 1000))])).
Proof.
  intros Hlen Hhash [= Hfree] Hfresh.
  rewrite (register_user_hashed _ _ _ _ _ _ _ Hlen Hhash).
  rewrite (create_user_inserts _ _ username);
    [| done | done | apply new_user_data_encodable | done | done].
  by rewrite new_user_data_stored.
Qed.

Lemma registered_lookup docs stored username :
  find_one docs "username" (VStr username) = None →
  stored !! "username" = Some (VStr username) →
  get_user_by_username (Collection (docs ++ [stored])) (VStr username)
    = Ok (Some stored).
Proof.
  intros Hfree Hname. simpl. rewrite find_one_app, Hfree.
  by rewrite bool_decide_eq_true_2.
Qed.

(** X17: registering a name no stored record has succeeds and stores one
    record for it: the password field holds the string [get_password_hash]
    returned, the admin flag is the one requested, the account is active
    and has no last login, and the creation time is the registration
    instant cut to the millisecond. *)
Theorem register_user_new salt docs now username password is_admin hashed :
  (8 <= len password)%nat →
  get_password_hash salt password = Ok hashed →
  get_user_by_username (Collection docs) (VStr username) = Ok None →
  (∀ d, d ∈ docs → dict_get d "_id" ≠ VObjectId (new_object_id docs)) →
  ∃ response db' stored,
    register_user salt (Collection docs) now username password is_admin
      = (Ok response, db') ∧
    success response = true ∧
    get_user_by_username db' (VStr username) = Ok (Some stored) ∧
    stored !! "password" = Some (VStr hashed) ∧
    stored !! "is_admin" = Some (VBool is_admin) ∧
    stored !! "is_active" = Some (VBool true) ∧
    stored !! "last_login" = Some VNone ∧
    stored !! "created_at" = Some (VDatetime (now / 1000 * 1000)).
Proof.
  intros Hlen Hhash Hfree Hfresh.
  eexists _, _, _. split; [by eapply register_user_inserts |].
  split; [done |]. injection Hfree as Hfree.
  split; [by apply registered_lookup |]. done.
Qed.

(** X18: registering a name that a stored record has fails with the 400
    whose detail says the username exists, and leaves the collection as it
    was. *)
Theorem register_user_taken salt db now username password is_admin hashed
    record :
  (8 <= len password)%nat →
  get_password_hash salt password = Ok hashed →
  get_user_by_username db (VStr username) = Ok (Some record) →
  register_user salt db now username password is_admin =
    (Raise (EHTTP (mkHTTPException 400 "Username already exists" None)), db).
Proof.
  intros Hlen Hhash Hu.
  rewrite (register_user_hashed _ _ _ _ _ _ _ Hlen Hhash).
  destruct db as [| docs]; [discriminate |]. injection Hu as Hu.
  by rewrite (create_user_taken _ _ username record);
    [| | apply new_user_data_encodable |].
Qed.


(** X20: the admin flag of a registration is the caller's to set: after a
    registration that asks for it, every token that verifies with the new
    name as subject passes the admin dependency. *)
Theorem register_admin_then_admitted salt jwt_handler docs now now' username
    password hashed token payload :
  (8 <= len password)%nat →
  get_password_hash salt password = Ok hashed →
  get_user_by_username (Collection docs) (VStr username) = Ok None →
  (∀ d, d ∈ docs → dict_get d "_id" ≠ VObjectId (new_object_id docs)) →
  verify_token jwt_handler now' token = Ok payload →
  payload !! "sub" = Some (VStr username) →
  ∃ response db' stored,
    register_user salt (Collection docs) now username password true
      = (Ok response, db') ∧
    depends_current_admin_user jwt_handler db' now' token = Ok stored ∧
    stored !! "is_admin" = Some (VBool true).
Proof.
  intros Hlen Hhash Hfree Hfresh Hv Hsub.
  eexists _, _,
    (delete "password"
       (<["_id" := VObjectId (new_object_id docs)]>
          (new_user_data username hashed true (now / 1000 * 1000)))).
  split; [by eapply register_user_inserts |].
  injection Hfree as Hfree.
  unfold depends_current_admin_user.
  rewrite (get_current_user_verified _ _ _ _ _ Hv).
  assert (dict_get payload "sub" = VStr username) as ->
    by (unfold dict_get; by rewrite Hsub).
  rewrite registered_lookup by done. simpl.
  split; [| reflexivity].
  unfold get_current_admin_user.
  rewrite andb_false_intro2; [done |]. reflexivity.
Qed.

(** ** Updates and deletions *)

Lemma update_one_absent docs field v k x :
  find_one docs field v = None → update_one docs field v k x = (0, docs).
Proof.
  unfold find_one. induction docs as [| d docs IH]; simpl; [done |].
  destruct (bool_decide (d !! field = Some v)); [discriminate |].
  intros H. by rewrite (IH H).
Qed.

Lemma update_one_found docs field v k x record :
  k ≠ field →
  find_one docs field v = Some record →
  (update_one docs field v k x).1
    = (if bool_decide (record !! k = Some x) then 0 else 1) ∧
  find_one (update_one docs field v k x).2 field v
    = Some (<[k := x]> record) ∧
  ∀ v', v' ≠ v →
    find_one (update_one docs field v k x).2 field v' = find_one docs field v'.
Proof.
  intros Hk. unfold find_one.
  induction docs as [| d docs IH]; simpl; [discriminate |].
  destruct (bool_decide (d !! field = Some v)) eqn:Hd.
  - intros [= ->]. simpl. apply bool_decide_eq_true in Hd.
    split; [done |]. split.
    + rewrite bool_decide_eq_true_2; [done |]. by rewrite lookup_insert_ne.
    + intros v' Hv'. rewrite lookup_insert_ne by done.
      rewrite !bool_decide_eq_false_2; [done | congruence..].
  - intros H. destruct (IH H) as (H1 & H2 & H3).
    destruct (update_one docs field v k x) as [n docs'] eqn:Hupd. simpl in *.
    rewrite Hd. split; [done |]. split; [done |].
    intros v' Hv'. by rewrite (H3 v' Hv').
Qed.

Lemma update_one_keeps docs field v k x f :
  f ≠ k →
  map (fun d => dict_get d f) (update_one docs field v k x).2
    = map (fun d => dict_get d f) docs.
Proof.
  intros Hf. induction docs as [| d docs IH]; simpl; [done |].
  destruct (bool_decide (d !! field = Some v)); simpl.
  - unfold dict_get at 1. by rewrite lookup_insert_ne.
  - destruct (update_one docs field v k x) as [n docs']. simpl in *.
    by rewrite IH.
Qed.

Lemma update_one_unmodified docs field v k x :
  (update_one docs field v k x).1 = 0 →
  (update_one docs field v k x).2 = docs.
Proof.
  induction docs as [| d docs IH]; simpl; [done |].
  destruct (bool_decide (d !! field = Some v)); simpl.
  - case_bool_decide as Hx; [| discriminate]. intros _.
    by rewrite insert_id.
  - destruct (update_one docs field v k x) as [n docs']. simpl in *.
    intros H. by rewrite (IH H).
Qed.

Lemma update_one_count docs field v k x :
  (update_one docs field v k x).1 = 0 ∨ (update_one docs field v k x).1 = 1.
Proof.
  induction docs as [| d docs IH]; simpl; [by left |].
  destruct (bool_decide (d !! field = Some v)); simpl.
  - case_bool_decide; auto.
  - by destruct (update_one docs field v k x).
Qed.

Lemma delete_one_absent docs field v :
  find_one docs field v = None → delete_one docs field v = (0, docs).
Proof.
  unfold find_one. induction docs as [| d docs IH]; simpl; [done |].
  destruct (bool_decide (d !! field = Some v)); [discriminate |].
  intros H. by rewrite (IH H).
Qed.

Lemma delete_one_found docs field v record :
  find_one docs field v = Some record →
  (delete_one docs field v).1 = 1 ∧
  ∀ v', v' ≠ v →
    find_one (delete_one docs field v).2 field v' = find_one docs field v'.
Proof.
  unfold find_one. induction docs as [| d docs IH]; simpl; [discriminate |].
  destruct (bool_decide (d !! field = Some v)) eqn:Hd.
  - intros _. simpl. split; [done |]. intros v' Hv'.
    apply bool_decide_eq_true in Hd.
    rewrite bool_decide_eq_false_2; [done | congruence].
  - intros H. destruct (IH H) as [H1 H2].
    destruct (delete_one docs field v) as [n docs']. simpl in *.
    split; [done |]. intros v' Hv'. by rewrite (H2 v' Hv').
Qed.

Lemma delete_one_sublist docs field v :
  sublist (delete_one docs field v).2 docs.
Proof.
  induction docs as [| d docs IH]; simpl; [done |].
  destruct (bool_decide (d !! field = Some v)); simpl.
  - by apply sublist_cons.
  - destruct (delete_one docs field v) as [n docs']. simpl in *.
    by apply sublist_skip.
Qed.

Lemma delete_one_gone docs field v :
  NoDup (map (fun d => dict_get d field) docs) →
  find_one (delete_one docs field v).2 field v = None.
Proof.
  unfold find_one. induction docs as [| d docs IH]; simpl; [done |].
  intros [Hnotin Hnd]%NoDup_cons.
  destruct (bool_decide (d !! field = Some v)) eqn:Hd; simpl.
  - apply bool_decide_eq_true in Hd.
    apply find_one_None. intros d' Hin Hd'. apply Hnotin.
    apply list_elem_of_fmap. exists d'. split; [| done].
    unfold dict_get. by rewrite Hd, Hd'.
  - destruct (delete_one docs field v) as [n docs'] eqn:Hdel. simpl in *.
    rewrite Hd. by apply IH.
Qed.

(** X21: the three writes keep usernames unique: if no two stored records
    share a username, none do after [create_user],
    [update_user_password] or [delete_user], whatever their outcome. *)
Theorem writes_keep_usernames_unique docs :
  unique_usernames docs →
  (∀ user_data r docs',
     create_user (Collection docs) user_data = (r, Collection docs') →
     unique_usernames docs') ∧
  (∀ username hashed r docs',
     update_user_password (Collection docs) username hashed
       = (r, Collection docs') →
     unique_usernames docs') ∧
  (∀ username r docs',
     delete_user (Collection docs) username = (r, Collection docs') →
     unique_usernames docs').
Proof.
  unfold unique_usernames. intros Hnd. split; [| split].
  - intros user_data r docs'. unfold create_user, insert_one. cbv zeta.
    set (doc := match user_data !! "_id" with
                | Some _ => user_data
                | None => <["_id" := VObjectId (new_object_id docs)]> user_data
                end).
    destruct (bson_encodable doc); simpl; [| by intros [= _ <-]].
    destruct (index_conflict "_id" (bson_document doc) docs); simpl;
      [by intros [= _ <-] |].
    destruct (index_conflict "username" (bson_document doc) docs) eqn:Hc;
      simpl; intros [= _ <-]; [done |].
    rewrite map_app. apply NoDup_app. split; [done |].
    split; [| apply NoDup_singleton].
    intros x (d & -> & Hin)%list_elem_of_fmap Hx.
    apply list_elem_of_singleton in Hx.
    by apply (proj1 (index_conflict_false _ _ _) Hc d).
  - intros username hashed r docs'. unfold update_user_password.
    pose proof (update_one_keeps docs "username" username "password"
                  (VStr hashed) "username") as Hkeep.
    destruct (update_one docs _ _ _ _) as [n ds]. simpl in Hkeep.
    intros [= _ <-]. by rewrite Hkeep.
  - intros username r docs'. unfold delete_user.
    pose proof (delete_one_sublist docs "username" username) as Hsub.
    destruct (delete_one docs _ _) as [n ds]. simpl in Hsub.
    intros [= _ <-].
    apply (sublist_NoDup _ (map (fun d => dict_get d "username") docs));
      [exact Hnd |].
    exact (fmap_sublist (fun d : Dict => dict_get d "username") _ _ Hsub).
Qed.

Lemma delete_user_lookup docs username :
  unique_usernames docs →
  ∃ docs',
    delete_user (Collection docs) (VStr username) =
      (Ok (bool_decide (is_Some (find_one docs "username" (VStr username)))),
       Collection docs') ∧
    get_user_by_username (Collection docs') (VStr username) = Ok None ∧
    ∀ other, other ≠ username →
      get_user_by_username (Collection docs') (VStr other)
        = get_user_by_username (Collection docs) (VStr other).
Proof.
  intros Hnd. unfold delete_user.
  pose proof (delete_one_gone docs "username" (VStr username) Hnd) as Hgone.
  destruct (find_one docs "username" (VStr username)) as [record |] eqn:Hf.
  - destruct (delete_one_found _ _ _ _ Hf) as [Hcount Hother].
    destruct (delete_one docs "username" (VStr username)) as [n docs'].
    simpl in *. subst n. exists docs'. split; [done |].
    split; [simpl; by rewrite Hgone |].
    intros other Hne. simpl. rewrite Hother; [done | congruence].
  - rewrite (delete_one_absent _ _ _ Hf). exists docs.
    split; [done |]. split; [simpl; by rewrite Hf | done].
Qed.

(** X22: with unique usernames, [delete_user] reports whether a record of
    that name was stored, afterwards no record of that name is found, and
    the answer for every other name is as before. *)
Theorem delete_user_then_lookup docs username :
  unique_usernames docs →
  ∃ docs',
    delete_user (Collection docs) (VStr username) =
      (Ok (bool_decide (is_Some (find_one docs "username" (VStr username)))),
       Collection docs') ∧
    get_user_by_username (Collection docs') (VStr username) = Ok None ∧
    ∀ other, other ≠ username →
      get_user_by_username (Collection docs') (VStr other)
        = get_user_by_username (Collection docs) (VStr other).
Proof. apply delete_user_lookup. Qed.

Lemma update_user_password_lookup docs username hashed record :
  get_user_by_username (Collection docs) (VStr username) = Ok (Some record) →
  ∃ docs',
    update_user_password (Collection docs) (VStr username) hashed =
      (Ok (bool_decide (record !! "password" ≠ Some (VStr hashed))),
       Collection docs') ∧
    get_user_by_username (Collection docs') (VStr username)
      = Ok (Some (<["password" := VStr hashed]> record)) ∧
    ∀ other, other ≠ username →
      get_user_by_username (Collection docs') (VStr other)
        = get_user_by_username (Collection docs) (VStr other).
Proof.
  intros [= Hf]. unfold update_user_password.
  destruct (update_one_found docs "username" (VStr username) "password"
              (VStr hashed) record) as (Hcount & Hnew & Hother); [done.. |].
  destruct (update_one docs _ _ _ _) as [n docs']. simpl in *.
  exists docs'. split; [| split; [simpl; by rewrite Hnew |]].
  - subst n. by case_bool_decide; case_bool_decide.
  - intros other Hne. simpl. rewrite Hother; [done | congruence].
Qed.

(** X23: for a name that has a record, [update_user_password] stores the
    new hash in that record and in no other, and reports [True] exactly
    when the stored hash was a different one; a lookup of the name then
    returns the record with the new hash. *)
Theorem update_user_password_then_lookup docs username hashed record :
  get_user_by_username (Collection docs) (VStr username) = Ok (Some record) →
  ∃ docs',
    update_user_password (Collection docs) (VStr username) hashed =
      (Ok (bool_decide (record !! "password" ≠ Some (VStr hashed))),
       Collection docs') ∧
    get_user_by_username (Collection docs') (VStr username)
      = Ok (Some (<["password" := VStr hashed]> record)) ∧
    ∀ other, other ≠ username →
      get_user_by_username (Collection docs') (VStr other)
        = get_user_by_username (Collection docs) (VStr other).
Proof. apply update_user_password_lookup. Qed.

(** ** Password change and account deletion *)

Lemma create_user_failed db user_data e db' :
  create_user db user_data = (Raise e, db') → db' = db.
Proof.
  unfold create_user. destruct db as [| docs]; [by intros [= _ <-] |].
  destruct (insert_one docs user_data) as [[[id docs'] |] | e'];
    [discriminate | by intros [= _ <-]..].
Qed.

Lemma update_user_password_failed db username hashed r db' :
  update_user_password db username hashed = (r, db') →
  r ≠ Ok true → db' = db.
Proof.
  unfold update_user_password. destruct db as [| docs]; [by intros [= _ <-] |].
  pose proof (update_one_unmodified docs "username" username "password"
                (VStr hashed)) as Hsame.
  pose proof (update_one_count docs "username" username "password"
                (VStr hashed)) as Hcount.
  destruct (update_one docs _ _ _ _) as [n docs0]. simpl in *.
  intros [= <- <-] Hr. destruct Hcount as [-> | ->]; [| done].
  by rewrite Hsame.
Qed.

Lemma delete_one_unmodified docs field v :
  (delete_one docs field v).1 = 1 ∨
  delete_one docs field v = (0, docs).
Proof.
  induction docs as [| d docs IH]; simpl; [by right |].
  destruct (bool_decide (d !! field = Some v)); [by left |].
  destruct IH as [IH | ->]; [| by right].
  destruct (delete_one docs field v). simpl in *. by left.
Qed.

Lemma delete_user_failed db username r db' :
  delete_user db username = (r, db') → r ≠ Ok true → db' = db.
Proof.
  unfold delete_user. destruct db as [| docs]; [by intros [= _ <-] |].
  destruct (delete_one_unmodified docs "username" username) as [H | ->].
  - destruct (delete_one docs _ _) as [n docs0]. simpl in *. subst n.
    by intros [= <- _].
  - by intros [= _ <-].
Qed.

(** X24: a write route that answers with an error has changed nothing:
    whenever [register_user], [change_password], [delete_current_user] or
    [delete_user_by_username] raises, the collection it leaves is the one
    it was given. *)
Theorem failed_writes_change_nothing db :
  (∀ salt now username password is_admin e db',
     register_user salt db now username password is_admin = (Raise e, db') →
     db' = db) ∧
  (∀ salt current_user current_password new_password e db',
     change_password salt db current_user current_password new_password
       = (Raise e, db') →
     db' = db) ∧
  (∀ current_user e db',
     delete_current_user db current_user = (Raise e, db') → db' = db) ∧
  (∀ current_user username e db',
     delete_user_by_username db current_user username = (Raise e, db') →
     db' = db).
Proof.
  split; [| split; [| split]].
  - intros salt now username password is_admin e db'. unfold register_user.
    destruct (validate_password_strength password); [| by intros [= _ <-]].
    destruct (get_password_hash salt password) as [hashed | e'];
      [| by destruct e'; intros [= _ <-]].
    destruct (create_user db _) as [[user_id | e'] db0] eqn:Hc;
      [discriminate |].
    apply create_user_failed in Hc as ->. by destruct e'; intros [= _ <-].
  - intros salt current_user current_password new_password e db'.
    unfold change_password.
    destruct (dict_index current_user "username") as [username |];
      [| by intros [= _ <-]].
    cbv zeta.
    match goal with |- match ?c with _ => _ end = _ → _ => destruct c end;
      [| by intros [= _ <-]].
    destruct (update_user_password db _ _) as [[[] | e'] db0] eqn:Hu;
      [discriminate | |];
      apply update_user_password_failed in Hu as ->; try done;
      by intros [= _ <-].
  - intros current_user e db'. unfold delete_current_user.
    destruct (dict_index current_user "username") as [username |];
      [| by intros [= _ <-]].
    destruct (delete_user db username) as [[[] | e'] db0] eqn:Hd;
      [discriminate | |];
      apply delete_user_failed in Hd as ->; try done; by intros [= _ <-].
  - intros current_user username e db'. unfold delete_user_by_username.
    match goal with |- match ?c with _ => _ end = _ → _ => destruct c end;
      [| by intros [= _ <-]].
    destruct (delete_user db (VStr username)) as [[[] | e'] db0] eqn:Hd;
      [discriminate | |];
      apply delete_user_failed in Hd as ->; try done; by intros [= _ <-].
Qed.



(** X26: [change_password] answers 400 when the current password does not
    verify against the hash stored for the caller, and stores nothing. *)
Theorem change_password_wrong_current salt db current_user username record
    stored current_password new_password :
  current_user !! "username" = Some (VStr username) →
  get_user_by_username db (VStr username) = Ok (Some record) →
  record !! "password" = Some stored →
  verify_password current_password stored = Ok false →
  change_password salt db current_user current_password new_password =
    (Raise (EHTTP (mkHTTPException 400 "Current password is incorrect" None)),
     db).
Proof.
  intros Hname Hu Hstored Hv. unfold change_password, dict_index.
  rewrite Hname. cbv zeta. rewrite Hu. simpl.
  rewrite Hstored. simpl. by rewrite Hv.
Qed.

(** X27: [delete_user_by_username] answers 404 for a name that has no
    record and 400 when the name is the caller's own, in this order. *)
Theorem delete_user_by_username_refusals db current_user username :
  (get_user_by_username db (VStr username) = Ok None →
   delete_user_by_username db current_user username =
     (Raise (EHTTP (user_not_found username)), db)) ∧
  (∀ record,
     get_user_by_username db (VStr username) = Ok (Some record) →
     current_user !! "username" = Some (VStr username) →
     delete_user_by_username db current_user username =
       (Raise (EHTTP cannot_delete_own_account), db)).
Proof.
  split.
  - intros Hu. unfold delete_user_by_username. by rewrite Hu.
  - intros record Hu Hown. unfold delete_user_by_username, dict_index.
    rewrite Hu. simpl.
    rewrite bool_decide_eq_false_2.
    2:{ intros ->. apply get_user_by_username_record in Hu.
        by rewrite lookup_empty in Hu. }
    rewrite Hown. simpl. by rewrite bool_decide_eq_true_2.
Qed.

Lemma delete_user_by_username_allowed db current_user own username record :
  get_user_by_username db (VStr username) = Ok (Some record) →
  current_user !! "username" = Some own →
  own ≠ VStr username →
  delete_user_by_username db current_user username =
    match delete_user db (VStr username) with
    | (Ok true, db') =>
        (Ok (mkAPIResponse
               ("User '" +:+ username +:+ "' deleted successfully")%string
               true None),
         db')
    | (Ok false, db') => (Raise (EHTTP failed_to_delete_user), db')
    | (Raise e, db') => (reraise_http failed_to_delete_user (Raise e), db')
    end.
Proof.
  intros Hu Hown Hne. unfold delete_user_by_username, dict_index.
  rewrite Hu. simpl.
  rewrite bool_decide_eq_false_2.
  2:{ intros ->. apply get_user_by_username_record in Hu.
      by rewrite lookup_empty in Hu. }
  rewrite Hown. simpl. by rewrite bool_decide_eq_false_2 by congruence.
Qed.

(** X28: with unique usernames, an admin's deletion of another user's
    record succeeds; afterwards no record of that name is found and every
    other name is answered as before. *)
Theorem delete_user_by_username_then_lookup docs current_user own username
    record :
  unique_usernames docs →
  get_user_by_username (Collection docs) (VStr username) = Ok (Some record) →
  current_user !! "username" = Some own →
  own ≠ VStr username →
  ∃ response docs',
    delete_user_by_username (Collection docs) current_user username
      = (Ok response, Collection docs') ∧
    get_user_by_username (Collection docs') (VStr username) = Ok None ∧
    ∀ other, other ≠ username →
      get_user_by_username (Collection docs') (VStr other)
        = get_user_by_username (Collection docs) (VStr other).
Proof.
  intros Hnd Hu Hown Hne.
  destruct (delete_user_lookup docs username Hnd)
    as (docs' & Hdel & Hgone & Hother).
  rewrite (delete_user_by_username_allowed _ _ _ _ _ Hu Hown Hne), Hdel.
  injection Hu as Hu. rewrite Hu. simpl.
  eexists _, docs'. split; [done |]. split; [done |]. exact Hother.
Qed.

(** X29: with unique usernames, the caller of [delete_current_user] whose
    identity a token established has the account deleted, and the same
    token, still verifying, establishes no identity afterwards: the
    extraction fails with the 401 credentials error. *)
Theorem delete_current_user_then_rejected jwt_handler docs now token
    current_user :
  unique_usernames docs →
  get_current_user jwt_handler (Collection docs) now token = Ok current_user →
  ∃ docs' payload,
    delete_current_user (Collection docs) current_user
      = (Ok (mkAPIResponse "User account deleted successfully" true None),
         Collection docs') ∧
    verify_token jwt_handler now token = Ok payload ∧
    get_current_user jwt_handler (Collection docs') now token
      = Raise (EHTTP credentials_exception).
Proof.
  intros Hnd (payload & record & Hv & Hu & ->)%get_current_user_Ok_inv.
  pose proof Hv as (_ & [sub Hsub] & _)%verify_token_Ok_inv.
  assert (dict_get payload "sub" = VStr sub) as Hget
    by (unfold dict_get; by rewrite Hsub).
  rewrite Hget in Hu.
  destruct (delete_user_lookup docs sub Hnd) as (docs' & Hdel & Hgone & _).
  exists docs', payload.
  unfold delete_current_user, dict_index.
  rewrite lookup_delete_ne by done.
  rewrite (get_user_by_username_record _ _ _ Hu), Hdel.
  injection Hu as Hu. rewrite Hu. simpl.
  split; [done |]. split; [done |].
  rewrite (get_current_user_verified _ _ _ _ _ Hv), Hget.
  simpl in Hgone. injection Hgone as Hgone. simpl. by rewrite Hgone.
Qed.

(** ** The listing of users *)

Lemma py_slice_length {A} (l : list A) skip limit :
  0 <= limit →
  (length (py_slice l skip (skip + limit)) <= Z.to_nat limit)%nat.
Proof.
  intros Hlimit. unfold py_slice. cbv zeta.
  rewrite length_take, length_drop.
  destruct (Z.ltb_spec skip 0); destruct (Z.ltb_spec (skip + limit) 0); lia.
Qed.

Lemma py_slice_page {A} (l : list A) skip limit :
  0 <= skip → 0 <= limit →
  py_slice l skip (skip + limit)
    = take (Z.to_nat limit) (drop (Z.to_nat skip) l).
Proof.
  intros Hskip Hlimit. unfold py_slice. cbv zeta.
  rewrite (proj2 (Z.ltb_ge skip 0)), (proj2 (Z.ltb_ge (skip + limit) 0))
    by lia.
  destruct (Z.le_gt_cases (Z.of_nat (length l)) skip) as [Hge | Hlt].
  - rewrite !drop_ge by lia. by rewrite !take_nil.
  - rewrite (Z.min_l skip) by lia.
    destruct (Z.le_gt_cases (skip + limit) (Z.of_nat (length l))) as [Hle | Hgt].
    + rewrite Z.min_l by lia. f_equal. lia.
    + rewrite Z.min_r by lia.
      rewrite !take_ge; [done | rewrite length_drop; lia..].
Qed.

(** X30: the listing reports as total the number of stored users whatever
    the page asked for; its page is a part of the stored records, in their
    order and without their [password] field, of at most [limit] records
    when [limit] is not negative, and the records from position [skip] on
    when [skip] is not negative either. *)
Theorem get_users_list_page db skip limit result :
  get_users_list db skip limit = Ok result →
  ∃ docs,
    db = Collection docs ∧
    total result = Z.of_nat (length docs) ∧
    sublist (users result) (map (delete "password") docs) ∧
    (0 <= limit → (length (users result) <= Z.to_nat limit)%nat) ∧
    (0 <= skip → 0 <= limit →
     users result
       = take (Z.to_nat limit)
           (drop (Z.to_nat skip) (map (delete "password") docs))).
Proof.
  unfold get_users_list. destruct db as [| docs]; simpl; [discriminate |].
  destruct (forallb _ _); simpl; [| discriminate].
  intros [= <-]. simpl. exists docs. split; [done |].
  split; [by rewrite length_map |].
  split; [apply py_slice_sublist |].
  split; [apply py_slice_length | apply py_slice_page].
Qed.

End Service.

(** * The properties on the sample data *)

Lemma sample_handler_representable now :
  0 <= now <= 4102444800000000 → expiry_representable sample_handler now.
Proof.
  unfold expiry_representable, timedelta_min, timedelta_max, datetime_min,
    datetime_max.
  simpl. lia.
Qed.

(** [len] counts code points, not bytes: seven letters of two bytes each
    are too short a password. *)
Lemma len_code_points :
  len "ééééééé" = 7%nat ∧
  String.length "ééééééé" = 14%nat ∧
  validate_password_strength "ééééééé" = Raise (EHTTP password_too_short).
Proof. repeat split; exact eq_refl. Qed.

(** C1: in UTC, a token verified one hundred seconds after its expiry is
    reported with the invalid-credentials error, the one a forged token
    gets, and not with the token-expired error. *)
Theorem expired_token_reported_as_invalid :
  create_access_token sample_handler sample_now {[ "sub" := VStr "alice" ]} None
    = Ok alice_token ∧
  verify_token 0 sample_int_of_str sample_handler
    (sample_now + 1900000000) alice_token
    = Raise (EHTTP invalid_credentials) ∧
  verify_token 0 sample_int_of_str sample_handler sample_now forged_token
    = Raise (EHTTP invalid_credentials).
Proof. repeat split; vm_compute; reflexivity. Qed.

(** C2: on a host whose local time is five hours behind UTC, a token
    verified at the very instant it was issued is rejected as expired. *)
Theorem fresh_token_rejected_behind_utc :
  create_access_token sample_handler sample_now {[ "sub" := VStr "alice" ]} None
    = Ok alice_token ∧
  verify_token (-18000) sample_int_of_str sample_handler sample_now alice_token
    = Raise (EHTTP token_expired).
Proof. split; vm_compute; reflexivity. Qed.

(** C7: two failed logins in the same state, one for a stored name with a
    wrong password and one for a name that is not stored, raise the same
    401 with the same generic detail, but the responses the client receives
    differ in the header [X-Process-Time]: the one for the unknown name
    tells the time of the lookup alone, as no password is verified for
    it. *)
Theorem failed_logins_told_apart :
  login sample_calc_checksum sample_handler sample_db sample_now
    "alice" "looking-glass"
    = Raise (EHTTP incorrect_username_or_password) ∧
  login sample_calc_checksum sample_handler sample_db sample_now
    "mallory" "looking-glass"
    = Raise (EHTTP incorrect_username_or_password) ∧
  login_request sample_calc_checksum sample_find_one_time sample_verify_time
    sample_handler sample_db sample_now "alice" "looking-glass" 0
    = Ok (mkLogged
            (ErrorResponse
               (mkResponse (detail_json "Incorrect username or password") 401
                  "application/json" [("WWW-Authenticate", "Bearer")]%string))
            252000) ∧
  login_request sample_calc_checksum sample_find_one_time sample_verify_time
    sample_handler sample_db sample_now "mallory" "looking-glass" 0
    = Ok (mkLogged
            (ErrorResponse
               (mkResponse (detail_json "Incorrect username or password") 401
                  "application/json" [("WWW-Authenticate", "Bearer")]%string))
            2000) ∧
  login_request sample_calc_checksum sample_find_one_time sample_verify_time
    sample_handler sample_db sample_now "alice" "looking-glass" 0
  ≠ login_request sample_calc_checksum sample_find_one_time
      sample_verify_time sample_handler sample_db sample_now "mallory"
      "looking-glass" 0.
Proof.
  assert (H1 : login_request sample_calc_checksum sample_find_one_time
                 sample_verify_time sample_handler sample_db sample_now
                 "alice" "looking-glass" 0
               = Ok (mkLogged
                       (ErrorResponse
                          (mkResponse
                             (detail_json "Incorrect username or password")
                             401 "application/json"
                             [("WWW-Authenticate", "Bearer")]%string))
                       252000))
    by exact eq_refl.
  assert (H2 : login_request sample_calc_checksum sample_find_one_time
                 sample_verify_time sample_handler sample_db sample_now
                 "mallory" "looking-glass" 0
               = Ok (mkLogged
                       (ErrorResponse
                          (mkResponse
                             (detail_json "Incorrect username or password")
                             401 "application/json"
                             [("WWW-Authenticate", "Bearer")]%string))
                       2000))
    by exact eq_refl.
  split; [exact eq_refl |]. split; [exact eq_refl |].
  split; [exact H1 |]. split; [exact H2 |].
  rewrite H1, H2. discriminate.
Qed.

(** Whatever the two times are, as long as the verification takes some. *)
Lemma login_requests_told_apart_sample :
  ∃ r1 r2,
    login_request sample_calc_checksum sample_find_one_time sample_verify_time
      sample_handler sample_db sample_now "alice" "looking-glass" 0 = Ok r1 ∧
    login_request sample_calc_checksum sample_find_one_time sample_verify_time
      sample_handler sample_db sample_now "mallory" "looking-glass" 0
      = Ok r2 ∧
    logged r1 = logged r2 ∧
    x_process_time r1
      = sample_find_one_time
        + sample_verify_time "looking-glass" (VStr alice_hash) ∧
    x_process_time r2 = sample_find_one_time ∧
    x_process_time r1 ≠ x_process_time r2.
Proof.
  apply (login_requests_told_apart sample_calc_checksum sample_find_one_time
           sample_verify_time sample_handler sample_db sample_now
           "alice" "looking-glass" "mallory" "looking-glass" alice_record
           (VStr alice_hash) 0).
  - exact eq_refl.
  - exact eq_refl.
  - discriminate.
  - exact eq_refl.
  - reflexivity.
Defined.

Lemma issue_then_verify_utc :
  ∃ t payload,
    create_access_token sample_handler sample_now {[ "sub" := VStr "alice" ]}
      None = Ok t ∧
    verify_token 0 sample_int_of_str sample_handler sample_now t = Ok payload ∧
    payload !! "sub" = Some (VStr "alice").
Proof.
  apply (issue_then_verify 0 sample_int_of_str sample_handler sample_now "alice").
  - reflexivity.
  - apply sample_handler_representable. unfold sample_now. lia.
  - simpl. lia.
  - simpl. lia.
  - vm_compute. reflexivity.
Defined.

(** The excluded prefix wins over a protected one that also matches, and
    the installed gate hands the login path and an unmatched path on. *)
Lemma dispatch_pass_through_witness :
  String.prefix "/auth" "/auth/token" = true ∧
  dispatch 0 sample_int_of_str sample_wire
    (JWTMiddleware_init (Some ["/auth"%string]))
    sample_handler sample_now (mkRequest "/auth/token" None None None)
  = CallNext (mkRequest "/auth/token" None None None) ∧
  dispatch 0 sample_int_of_str sample_wire app_middleware
    sample_handler sample_now (mkRequest "/auth/token" None None None)
  = CallNext (mkRequest "/auth/token" None None None) ∧
  dispatch 0 sample_int_of_str sample_wire app_middleware
    sample_handler sample_now (mkRequest "/chat/ask" None None None)
  = CallNext (mkRequest "/chat/ask" None None None).
Proof.
  split; [reflexivity |]. split; [| split].
  - apply dispatch_pass_through. left. exists "/auth/token"%string.
    split; [apply list_elem_of_here | reflexivity].
  - apply dispatch_pass_through. left. exists "/auth/token"%string.
    split; [apply list_elem_of_here | reflexivity].
  - apply dispatch_pass_through. right. intros protected Hin.
    simpl in Hin. repeat (apply elem_of_cons in Hin as [-> | Hin];
                          [reflexivity |]).
    by apply not_elem_of_nil in Hin.
Defined.

Lemma undated_token_reported_as_expired :
  verify_token 0 sample_int_of_str sample_handler sample_now undated_token
    = Raise (EHTTP token_expired) ∧
  token_expired ≠ invalid_credentials.
Proof. split; [vm_compute; reflexivity | discriminate]. Qed.

Lemma verify_token_failure_kinds_witness :
  verify_token 0 sample_int_of_str sample_handler sample_now forged_token
    = Raise (EHTTP invalid_credentials) ∧
  verify_token 0 sample_int_of_str sample_handler sample_now anonymous_token
    = Raise (EHTTP invalid_credentials) ∧
  verify_token 0 sample_int_of_str sample_handler sample_now undated_token
    = Raise (EHTTP token_expired).
Proof.
  split; [| split].
  - apply (verify_token_failure_kinds 0 sample_int_of_str).
    by apply jws_verify_other_secret.
  - eapply (verify_token_failure_kinds 0 sample_int_of_str).
    + reflexivity.
    + vm_compute. reflexivity.
    + vm_compute. discriminate.
  - eapply (verify_token_failure_kinds 0 sample_int_of_str).
    + vm_compute. reflexivity.
    + vm_compute. eauto.
    + vm_compute. reflexivity.
Defined.

Lemma refresh_token_collapses_failures :
  verify_token 0 sample_int_of_str sample_handler sample_now forged_token
    = Raise (EHTTP invalid_credentials) ∧
  verify_token 0 sample_int_of_str sample_handler sample_now undated_token
    = Raise (EHTTP token_expired) ∧
  refresh_token 0 sample_int_of_str sample_handler sample_now forged_token
    = Raise (EHTTP could_not_refresh) ∧
  refresh_token 0 sample_int_of_str sample_handler sample_now undated_token
    = Raise (EHTTP could_not_refresh) ∧
  could_not_refresh ≠ invalid_credentials ∧
  could_not_refresh ≠ token_expired.
Proof.
  repeat split; try (vm_compute; reflexivity); discriminate.
Qed.

Lemma refresh_token_minimal_trust_witness :
  match
    verify_token 0 sample_int_of_str sample_handler (sample_now + 60000000)
      alice_token
  with
  | Ok payload =>
      ∃ sub, payload !! "sub" = Some (VStr sub) ∧
        refresh_token 0 sample_int_of_str sample_handler
          (sample_now + 60000000) alice_token =
          create_access_token sample_handler (sample_now + 60000000)
            {[ "sub" := VStr sub ]} None ∧
        refresh_token 0 sample_int_of_str sample_handler
          (sample_now + 60000000) alice_token =
          Ok (Signed "HS256" "s3cret"
                {[ "sub" := VStr sub;
                   "exp" := VInt (timegm (sample_now + 60000000
                                          + 30 * 60000000));
                   "iat" := VInt (timegm (sample_now + 60000000)) ]})
  | Raise _ =>
      refresh_token 0 sample_int_of_str sample_handler
        (sample_now + 60000000) alice_token = Raise (EHTTP could_not_refresh)
  end.
Proof.
  apply (refresh_token_minimal_trust 0 sample_int_of_str sample_handler).
  apply sample_handler_representable. unfold sample_now. lia.
Defined.

Lemma superuser_name_without_record_rejected :
  verify_token 0 sample_int_of_str sample_handler sample_now admin_token
    = Ok admin_claims ∧
  dict_get admin_claims "sub" = VStr "admin" ∧
  get_user_by_username (Collection [alice_record]) (VStr "admin") = Ok None ∧
  depends_current_admin_user 0 sample_int_of_str sample_handler
    (Collection [alice_record]) sample_now admin_token
    = Raise (EHTTP credentials_exception).
Proof. repeat split; vm_compute; reflexivity. Qed.

Lemma admin_dependency_decision_witness :
  depends_current_admin_user 0 sample_int_of_str sample_handler sample_db
    sample_now admin_token = Ok (delete "password" admin_record) ∧
  depends_current_admin_user 0 sample_int_of_str sample_handler sample_db
    sample_now alice_token = Raise (EHTTP not_enough_permissions) ∧
  depends_current_admin_user 0 sample_int_of_str sample_handler Unreachable
    sample_now admin_token = Raise (EHTTP credentials_exception).
Proof.
  assert (Hadmin : verify_token 0 sample_int_of_str sample_handler sample_now
                     admin_token = Ok admin_claims)
    by (vm_compute; reflexivity).
  assert (Halice : verify_token 0 sample_int_of_str sample_handler sample_now
                     alice_token = Ok alice_claims)
    by (vm_compute; reflexivity).
  split; [| split].
  - exact (admin_dependency_decision 0 sample_int_of_str sample_handler
             sample_db sample_now admin_token admin_claims Hadmin).
  - exact (admin_dependency_decision 0 sample_int_of_str sample_handler
             sample_db sample_now alice_token alice_claims Halice).
  - exact (admin_dependency_decision 0 sample_int_of_str sample_handler
             Unreachable sample_now admin_token admin_claims Hadmin).
Defined.

Lemma login_failure_uniform_witness :
  login sample_calc_checksum sample_handler sample_db sample_now
    "alice" "looking-glass" =
    Raise (EHTTP (mkHTTPException 401 "Incorrect username or password"
                    www_authenticate)) ∧
  login sample_calc_checksum sample_handler sample_db sample_now
    "mallory" "looking-glass" =
  login sample_calc_checksum sample_handler sample_db sample_now
    "alice" "looking-glass".
Proof.
  apply (login_failure_uniform sample_calc_checksum sample_handler sample_db
           sample_now "alice" "looking-glass" "mallory" "looking-glass"
           alice_record).
  - vm_compute. reflexivity.
  - vm_compute. discriminate.
  - vm_compute. reflexivity.
Defined.

(** The directory's lookup and [authenticate_user] hand the stored record,
    hash included, to the code that calls them. *)
Lemma stored_record_handed_with_hash :
  get_user_by_username sample_db (VStr "alice") = Ok (Some alice_record) ∧
  authenticate_user sample_calc_checksum sample_db "alice" "wonderland"
    = Some alice_record ∧
  alice_record !! "password" = Some (VStr alice_hash).
Proof. repeat split; exact eq_refl. Qed.

Lemma returned_records_without_password_witness :
  alice_record !! "password" = Some (VStr alice_hash) ∧
  get_current_user 0 sample_int_of_str sample_handler sample_db sample_now
    alice_token = Ok (delete "password" alice_record) ∧
  delete "password" alice_record !! "password" = None ∧
  depends_current_admin_user 0 sample_int_of_str sample_handler sample_db
    sample_now admin_token = Ok (delete "password" admin_record) ∧
  get_user_by_username_endpoint 0 sample_int_of_str sample_accepts
    sample_handler sample_db sample_now admin_token "alice"
    = Ok (delete "password" alice_record) ∧
  get_all_users sample_db
    = Ok [delete "password" alice_record; delete "password" admin_record] ∧
  get_users_list sample_accepts sample_db 1 1
    = Ok (mkUserList [delete "password" admin_record] 2) ∧
  delete "password" admin_record !! "password" = None.
Proof.
  assert (Hcur : get_current_user 0 sample_int_of_str sample_handler sample_db
                   sample_now alice_token = Ok (delete "password" alice_record))
    by exact eq_refl.
  assert (Hadm : depends_current_admin_user 0 sample_int_of_str sample_handler
                   sample_db sample_now admin_token
                 = Ok (delete "password" admin_record))
    by exact eq_refl.
  assert (Hall : get_all_users sample_db
                 = Ok [delete "password" alice_record;
                       delete "password" admin_record])
    by exact eq_refl.
  assert (Hlist : get_users_list sample_accepts sample_db 1 1
                  = Ok (mkUserList [delete "password" admin_record] 2))
    by exact eq_refl.
  pose proof (returned_records_without_password 0 sample_int_of_str
                sample_accepts sample_handler sample_db sample_now alice_token
                "alice" 1 1) as (H1 & _ & _ & _ & H5).
  pose proof (returned_records_without_password 0 sample_int_of_str
                sample_accepts sample_handler sample_db sample_now admin_token
                "alice" 1 1) as (_ & H2 & H3 & H4 & _).
  split; [exact eq_refl |].
  split; [exact Hcur |].
  split; [exact (H1 _ Hcur) |].
  split; [exact Hadm |].
  split; [exact eq_refl |].
  split; [exact Hall |].
  split; [exact Hlist |].
  apply (H5 _ Hlist). apply list_elem_of_here.
Defined.



Lemma get_current_user_unknown_subject_witness :
  get_current_user 0 sample_int_of_str sample_handler
    (Collection [admin_record]) sample_now alice_token
    = Raise (EHTTP credentials_exception) ∧
  status_code credentials_exception = 401.
Proof.
  apply (get_current_user_unknown_subject 0 sample_int_of_str sample_handler
           (Collection [admin_record]) sample_now alice_token alice_claims).
  - vm_compute. reflexivity.
  - vm_compute. reflexivity.
Defined.


(** * The further properties on the sample data *)

Lemma verify_token_sound_witness :
  alice_token = Signed "HS256" "s3cret" alice_claims ∧
  (∃ s, alice_claims !! "sub" = Some (VStr s)) ∧
  ∃ exp limit,
    alice_claims !! "exp" = Some exp ∧
    fromtimestamp 0 exp = Ok limit ∧ sample_now <= limit.
Proof.
  apply (verify_token_sound 0 sample_int_of_str sample_handler sample_now
           alice_token alice_claims).
  exact eq_refl.
Defined.

(** The caller's own expiry is replaced, the caller's other claims stay. *)
Lemma create_access_token_claims_witness :
  ∃ claims,
    Signed "HS256" "s3cret"
      {[ "sub" := VStr "alice"; "role" := VStr "auditor";
         "exp" := VInt 1700001800; "iat" := VInt 1700000000 ]}
      = Signed (algorithm sample_handler) (secret_key sample_handler) claims ∧
    claims !! "exp" =
      Some (VInt (timegm (sample_now + lifetime sample_handler None))) ∧
    claims !! "iat" = Some (VInt (timegm sample_now)) ∧
    ∀ k, k ≠ "exp"%string → k ≠ "iat"%string → k ≠ "nbf"%string →
         claims !! k =
           ({[ "sub" := VStr "alice"; "role" := VStr "auditor";
               "exp" := VInt 4102444800 ]} : Dict) !! k.
Proof.
  apply (create_access_token_claims sample_handler sample_now
           {[ "sub" := VStr "alice"; "role" := VStr "auditor";
              "exp" := VInt 4102444800 ]} None).
  exact eq_refl.
Defined.

Lemma refresh_then_verify_witness :
  ∃ payload payload',
    verify_token 0 sample_int_of_str sample_handler (sample_now + 60000000)
      alice_token = Ok payload ∧
    verify_token 0 sample_int_of_str sample_handler (sample_now + 60000000)
      (Signed "HS256" "s3cret"
         {[ "sub" := VStr "alice"; "exp" := VInt 1700001860;
            "iat" := VInt 1700000060 ]}) = Ok payload' ∧
    payload' !! "sub" = payload !! "sub".
Proof.
  apply (refresh_then_verify 0 sample_int_of_str sample_handler
           (sample_now + 60000000) alice_token).
  - exact eq_refl.
  - simpl. lia.
  - simpl. lia.
  - exact eq_refl.
Defined.

Lemma authenticate_user_sound_witness :
  get_user_by_username sample_db (VStr "alice") = Ok (Some alice_record) ∧
  ∃ hashed, alice_record !! "password" = Some hashed ∧
            verify_password sample_calc_checksum "wonderland" hashed = Ok true.
Proof.
  apply (authenticate_user_sound sample_calc_checksum sample_db "alice"
           "wonderland" alice_record).
  exact eq_refl.
Defined.

Lemma login_success_witness :
  login sample_calc_checksum sample_handler sample_db sample_now
    "alice" "wonderland" =
    Ok (mkTokenResponse
          (Signed "HS256" "s3cret"
             {[ "sub" := VStr "alice";
                "exp" := VInt (timegm (sample_now + 30 * 60000000));
                "iat" := VInt (timegm sample_now) ]})
          "bearer" (30 * 60)).
Proof.
  apply (login_success sample_calc_checksum sample_handler sample_db
           sample_now "alice" "wonderland" alice_record
           (VStr alice_hash)).
  - exact eq_refl.
  - exact eq_refl.
  - exact eq_refl.
  - reflexivity.
  - apply sample_handler_representable. unfold sample_now. lia.
Defined.


Lemma dispatch_missing_header_witness :
  dispatch 0 sample_int_of_str sample_wire app_middleware sample_handler
    sample_now (mkRequest "/users/me" (Some "Basic YWxpY2U6cHc=") None None)
  = Return missing_header_response.
Proof.
  apply dispatch_missing_header.
  - split.
    + intros excluded Hin. simpl in Hin.
      repeat (apply elem_of_cons in Hin as [-> | Hin]; [reflexivity |]).
      by apply not_elem_of_nil in Hin.
    + exists "/users"%string. split; [apply list_elem_of_here | reflexivity].
  - right. eexists. split; reflexivity.
Defined.

(** Text after the token does not count. *)
Lemma dispatch_bearer_token_witness :
  dispatch 0 sample_int_of_str alice_wire app_middleware sample_handler
    sample_now
    (mkRequest "/users/me" (Some "Bearer alice.jwt trailing") None None)
  = CallNext
      (mkRequest "/users/me" (Some "Bearer alice.jwt trailing")
         (Some {[ "username" := VStr "alice" ]}) (Some alice_claims)).
Proof.
  apply (dispatch_bearer_token 0 sample_int_of_str alice_wire app_middleware
           sample_handler sample_now
           (mkRequest "/users/me" (Some "Bearer alice.jwt trailing") None None)
           "alice.jwt" " trailing" alice_claims).
  - split.
    + intros excluded Hin. simpl in Hin.
      repeat (apply elem_of_cons in Hin as [-> | Hin]; [reflexivity |]).
      by apply not_elem_of_nil in Hin.
    + exists "/users"%string. split; [apply list_elem_of_here | reflexivity].
  - reflexivity.
  - reflexivity.
  - right. by eexists.
  - exact eq_refl.
Defined.

Lemma app_gate_chat_unguarded_witness :
  dispatch 0 sample_int_of_str sample_wire app_middleware sample_handler
    sample_now (mkRequest "/chat/ask" (Some "Bearer no-such-token") None None)
  = CallNext (mkRequest "/chat/ask" (Some "Bearer no-such-token") None None).
Proof. apply app_gate_chat_unguarded. reflexivity. Defined.

Lemma get_current_user_identity_witness :
  ∃ payload sub record,
    verify_token 0 sample_int_of_str sample_handler sample_now alice_token
      = Ok payload ∧
    payload !! "sub" = Some (VStr sub) ∧
    get_user_by_username sample_db (VStr sub) = Ok (Some record) ∧
    delete "password" alice_record !! "username" = Some (VStr sub) ∧
    ∀ k, k ≠ "password"%string →
         delete "password" alice_record !! k = record !! k.
Proof.
  apply (get_current_user_identity 0 sample_int_of_str sample_handler
           sample_db sample_now alice_token).
  exact eq_refl.
Defined.

(** The creation time comes back without its microseconds. *)
Lemma create_user_then_lookup_witness :
  ∃ db',
    create_user sample_new_object_id
      (Collection [alice_record; admin_record])
      (new_user_data "carol" open_sesame_hash false sample_now)
      = (Ok (VObjectId
               (sample_new_object_id [alice_record; admin_record])), db') ∧
    get_user_by_username db' (VStr "carol")
      = Ok (Some (<["_id" := VObjectId
                               (sample_new_object_id
                                  [alice_record; admin_record])]>
                    (new_user_data "carol" open_sesame_hash false
                       1700000000123000))) ∧
    ∀ other, other ≠ "carol"%string →
      get_user_by_username db' (VStr other)
        = get_user_by_username (Collection [alice_record; admin_record])
            (VStr other).
Proof.
  apply (create_user_then_lookup sample_new_object_id
           [alice_record; admin_record]
           (new_user_data "carol" open_sesame_hash false sample_now)
           "carol").
  - exact eq_refl.
  - exact eq_refl.
  - exact eq_refl.
  - exact eq_refl.
  - intros d Hin.
    repeat (apply elem_of_cons in Hin as [-> | Hin]; [by vm_compute |]).
    by apply not_elem_of_nil in Hin.
Defined.

Lemma register_user_new_witness :
  ∃ response db' stored,
    register_user sample_new_object_id toy_hash sample_datetime_str
      sample_hash_value_error sample_salt (Collection [bob_record; admin_record])
      sample_now "carol" "open-sesame" false
      = (Ok response, db') ∧
    success response = true ∧
    get_user_by_username db' (VStr "carol") = Ok (Some stored) ∧
    stored !! "password" = Some (VStr open_sesame_hash) ∧
    stored !! "is_admin" = Some (VBool false) ∧
    stored !! "is_active" = Some (VBool true) ∧
    stored !! "last_login" = Some VNone ∧
    stored !! "created_at" = Some (VDatetime 1700000000123000).
Proof.
  apply (register_user_new sample_new_object_id toy_hash sample_datetime_str
           sample_hash_value_error sample_salt [bob_record; admin_record]
           sample_now "carol" "open-sesame" false open_sesame_hash).
  - simpl. lia.
  - exact eq_refl.
  - exact eq_refl.
  - intros d Hin.
    repeat (apply elem_of_cons in Hin as [-> | Hin]; [by vm_compute |]).
    by apply not_elem_of_nil in Hin.
Defined.

Lemma register_user_taken_witness :
  register_user sample_new_object_id toy_hash sample_datetime_str
    sample_hash_value_error sample_salt toy_db sample_now "bob" "open-sesame" true
  = (Raise (EHTTP (mkHTTPException 400 "Username already exists" None)),
     toy_db).
Proof.
  apply (register_user_taken sample_new_object_id toy_hash
           sample_datetime_str sample_hash_value_error sample_salt toy_db
           sample_now "bob" "open-sesame" true open_sesame_hash
           bob_record).
  - simpl. lia.
  - exact eq_refl.
  - exact eq_refl.
Defined.


(** Registered with the admin flag, the subject of [alice_token] is
    admitted. *)
Lemma register_admin_then_admitted_witness :
  ∃ response db' stored,
    register_user sample_new_object_id toy_hash sample_datetime_str
      sample_hash_value_error sample_salt (Collection [bob_record; admin_record])
      sample_now "alice" "open-sesame" true
      = (Ok response, db') ∧
    depends_current_admin_user 0 sample_int_of_str sample_handler db'
      sample_now alice_token = Ok stored ∧
    stored !! "is_admin" = Some (VBool true).
Proof.
  apply (register_admin_then_admitted 0 sample_int_of_str
           sample_new_object_id toy_hash sample_datetime_str
           sample_hash_value_error sample_salt sample_handler
           [bob_record; admin_record] sample_now sample_now
           "alice" "open-sesame" open_sesame_hash alice_token
           alice_claims).
  - simpl. lia.
  - exact eq_refl.
  - exact eq_refl.
  - intros d Hin.
    repeat (apply elem_of_cons in Hin as [-> | Hin]; [by vm_compute |]).
    by apply not_elem_of_nil in Hin.
  - exact eq_refl.
  - exact eq_refl.
Defined.

Lemma toy_usernames_unique : unique_usernames [bob_record; admin_record].
Proof.
  unfold unique_usernames.
  change (NoDup [VStr "bob"; VStr "admin"]).
  apply NoDup_cons. split; [| apply NoDup_singleton].
  rewrite list_elem_of_singleton. discriminate.
Qed.

Lemma writes_keep_usernames_unique_witness :
  (∀ user_data r docs',
     create_user sample_new_object_id (Collection [bob_record; admin_record])
       user_data = (r, Collection docs') →
     unique_usernames docs') ∧
  (∀ username hashed r docs',
     update_user_password (Collection [bob_record; admin_record]) username
       hashed = (r, Collection docs') →
     unique_usernames docs') ∧
  (∀ username r docs',
     delete_user (Collection [bob_record; admin_record]) username
       = (r, Collection docs') →
     unique_usernames docs').
Proof.
  apply (writes_keep_usernames_unique sample_new_object_id
           [bob_record; admin_record]).
  apply toy_usernames_unique.
Defined.

Lemma delete_user_then_lookup_witness :
  ∃ docs',
    delete_user (Collection [bob_record; admin_record]) (VStr "bob") =
      (Ok (bool_decide
             (is_Some (find_one [bob_record; admin_record] "username"
                         (VStr "bob")))),
       Collection docs') ∧
    get_user_by_username (Collection docs') (VStr "bob") = Ok None ∧
    ∀ other, other ≠ "bob"%string →
      get_user_by_username (Collection docs') (VStr other)
        = get_user_by_username (Collection [bob_record; admin_record])
            (VStr other).
Proof.
  apply (delete_user_then_lookup [bob_record; admin_record] "bob").
  apply toy_usernames_unique.
Defined.

Lemma update_user_password_then_lookup_witness :
  ∃ docs',
    update_user_password (Collection [bob_record; admin_record]) (VStr "bob")
      battery_staple_hash =
      (Ok (bool_decide
             (bob_record !! "password"
              ≠ Some (VStr battery_staple_hash))),
       Collection docs') ∧
    get_user_by_username (Collection docs') (VStr "bob")
      = Ok (Some (<["password" := VStr battery_staple_hash]> bob_record)) ∧
    ∀ other, other ≠ "bob"%string →
      get_user_by_username (Collection docs') (VStr other)
        = get_user_by_username (Collection [bob_record; admin_record])
            (VStr other).
Proof.
  apply (update_user_password_then_lookup [bob_record; admin_record] "bob"
           battery_staple_hash bob_record).
  exact eq_refl.
Defined.

(** A registration under a taken name leaves the collection as it was. *)
Lemma failed_writes_change_nothing_witness :
  (register_user sample_new_object_id toy_hash sample_datetime_str
     sample_hash_value_error sample_salt toy_db sample_now "bob" "open-sesame"
     false).2 = toy_db.
Proof.
  apply (proj1 (failed_writes_change_nothing sample_calc_checksum
                  sample_new_object_id toy_hash sample_datetime_str
                  sample_hash_value_error toy_db)
           sample_salt sample_now "bob" "open-sesame" false
           (EHTTP (bad_request "Username already exists"))).
  exact eq_refl.
Defined.


Lemma change_password_wrong_current_witness :
  change_password sample_calc_checksum toy_hash sample_salt toy_db
    (delete "password" bob_record) "wrong-horse" "battery-staple"
  = (Raise (EHTTP (mkHTTPException 400 "Current password is incorrect" None)),
     toy_db).
Proof.
  apply (change_password_wrong_current sample_calc_checksum toy_hash sample_salt
           toy_db (delete "password" bob_record) "bob" bob_record
           (VStr bob_hash) "wrong-horse" "battery-staple").
  - exact eq_refl.
  - exact eq_refl.
  - exact eq_refl.
  - exact eq_refl.
Defined.

Lemma delete_user_by_username_refusals_witness :
  delete_user_by_username toy_db (delete "password" admin_record) "nobody"
    = (Raise (EHTTP (user_not_found "nobody")), toy_db) ∧
  delete_user_by_username toy_db (delete "password" admin_record) "admin"
    = (Raise (EHTTP cannot_delete_own_account), toy_db).
Proof.
  split.
  - apply (proj1 (delete_user_by_username_refusals toy_db
                    (delete "password" admin_record) "nobody")).
    exact eq_refl.
  - apply (proj2 (delete_user_by_username_refusals toy_db
                    (delete "password" admin_record) "admin") admin_record).
    + exact eq_refl.
    + exact eq_refl.
Defined.

Lemma delete_user_by_username_then_lookup_witness :
  ∃ response docs',
    delete_user_by_username (Collection [bob_record; admin_record])
      (delete "password" admin_record) "bob"
      = (Ok response, Collection docs') ∧
    get_user_by_username (Collection docs') (VStr "bob") = Ok None ∧
    ∀ other, other ≠ "bob"%string →
      get_user_by_username (Collection docs') (VStr other)
        = get_user_by_username (Collection [bob_record; admin_record])
            (VStr other).
Proof.
  apply (delete_user_by_username_then_lookup [bob_record; admin_record]
           (delete "password" admin_record) (VStr "admin") "bob" bob_record).
  - apply toy_usernames_unique.
  - exact eq_refl.
  - exact eq_refl.
  - discriminate.
Defined.

Lemma delete_current_user_then_rejected_witness :
  ∃ docs' payload,
    delete_current_user (Collection [alice_record; admin_record])
      (delete "password" alice_record)
      = (Ok (mkAPIResponse "User account deleted successfully" true None),
         Collection docs') ∧
    verify_token 0 sample_int_of_str sample_handler sample_now alice_token
      = Ok payload ∧
    get_current_user 0 sample_int_of_str sample_handler (Collection docs')
      sample_now alice_token
      = Raise (EHTTP credentials_exception).
Proof.
  apply (delete_current_user_then_rejected 0 sample_int_of_str sample_handler
           [alice_record; admin_record] sample_now alice_token
           (delete "password" alice_record)).
  - unfold unique_usernames.
    change (NoDup [VStr "alice"; VStr "admin"]).
    apply NoDup_cons. split; [| apply NoDup_singleton].
    rewrite list_elem_of_singleton. discriminate.
  - exact eq_refl.
Defined.

(** The second of two stored users, without the password. *)
Lemma get_users_list_page_witness :
  ∃ docs,
    sample_db = Collection docs ∧
    total (mkUserList [delete "password" admin_record] 2)
      = Z.of_nat (length docs) ∧
    sublist (users (mkUserList [delete "password" admin_record] 2))
      (map (delete "password") docs) ∧
    (0 <= 1 →
     (length (users (mkUserList [delete "password" admin_record] 2))
      <= Z.to_nat 1)%nat) ∧
    (0 <= 1 → 0 <= 1 →
     users (mkUserList [delete "password" admin_record] 2)
       = take (Z.to_nat 1)
           (drop (Z.to_nat 1) (map (delete "password") docs))).
Proof.
  apply (get_users_list_page sample_accepts sample_db 1 1
           (mkUserList [delete "password" admin_record] 2)).
  exact eq_refl.
Defined.

(** A forged token fails the extraction with a 401. *)
Lemma get_current_user_raises_witness :
  get_current_user 0 sample_int_of_str sample_handler sample_db sample_now
    forged_token = Raise (EHTTP invalid_credentials) ∧
  ∃ h, EHTTP invalid_credentials = EHTTP h ∧ status_code h = 401.
Proof.
  split; [exact eq_refl |].
  apply (get_current_user_raises 0 sample_int_of_str sample_handler sample_db
           sample_now forged_token).
  exact eq_refl.
Defined.
